(** * vyos-client: the request gateway and its facades

    A shallow embedding of the client library (classes [Vyos], [VyosConfig],
    [VyosImages] and [VyosOps]) together with the fragment of the JavaScript
    runtime and of the HTTP transport (axios) that the library relies on.

    - [JS]     : parsed JSON values, property reads, the [in] operator,
                 truthiness, [String.prototype.split], [JSON.stringify];
    - [Axios]  : one network exchange, as a computation that may throw and
                 that records every request it puts on the wire;
    - [Vyos], [VyosConfig], [VyosImages], [VyosOps] : the library itself. *)

From Stdlib Require Import String Ascii List ZArith Bool Lia DecimalString.
From Stdlib Require DecimalNat DecimalFacts.
Import ListNotations.
Open Scope string_scope.

(* ================================================================== *)
(** ** The JavaScript fragment *)
(* ================================================================== *)

Module JS.

(** A value produced by [JSON.parse] (what axios hands over as the body of
    a response) or built by an object literal of strings (a request
    payload).  Objects keep their fields in insertion order, which is the
    order [JSON.stringify] prints them in.  Numbers are the integer-valued
    ones; the client only passes numbers through. *)
#[local] Set Warnings "-register-all".

Inductive json : Type :=
| JNull
| JBool (b : bool)
| JNum (n : Z)
| JStr (s : string)
| JArr (items : list json)
| JObj (fields : list (string * json)).

(** A value an expression of the client can evaluate to: [undefined], a
    JSON value, or a member that an object or an array inherits from its
    built-in prototype (a function such as [toString], or the prototype
    object itself for [__proto__]), named by its property name. *)
Inductive value : Type :=
| Undefined
| Json (j : json)
| Inherited (name : string).

(** Own property of an object literal: the first field of that name. *)
Fixpoint own (k : string) (fs : list (string * json)) : option json :=
  match fs with
  | [] => None
  | (k', v) :: rest => if String.eqb k k' then Some v else own k rest
  end.

Definition mem (k : string) (names : list string) : bool :=
  existsb (String.eqb k) names.

(** The property names every object inherits from [Object.prototype]. *)
Definition Object_prototype : list string :=
  [ "constructor"; "__defineGetter__"; "__defineSetter__"; "hasOwnProperty";
    "__lookupGetter__"; "__lookupSetter__"; "isPrototypeOf";
    "propertyIsEnumerable"; "toString"; "valueOf"; "__proto__";
    "toLocaleString" ].

(** The property names an array inherits from [Array.prototype] (ES2020);
    [length] is an own property and is handled apart. *)
Definition Array_prototype : list string :=
  [ "concat"; "copyWithin"; "fill"; "find"; "findIndex"; "lastIndexOf";
    "pop"; "push"; "reverse"; "shift"; "unshift"; "slice"; "sort"; "splice";
    "includes"; "indexOf"; "join"; "keys"; "entries"; "values"; "forEach";
    "filter"; "flat"; "flatMap"; "map"; "every"; "some"; "reduce";
    "reduceRight" ].

Definition string_of_nat (n : nat) : string :=
  NilZero.string_of_uint (Nat.to_uint n).

(** An array index is the canonical decimal numeral of a position. *)
Definition array_index (k : string) (len : nat) : option nat :=
  find (fun i => String.eqb k (string_of_nat i)) (seq 0 len).

(** Truthiness, as [if] and [&&] test it. *)
Definition truthy (v : value) : bool :=
  match v with
  | Undefined => false
  | Json JNull => false
  | Json (JBool b) => b
  | Json (JNum n) => negb (Z.eqb n 0)
  | Json (JStr EmptyString) => false
  | Json (JStr (String _ _)) => true
  | Json (JArr _) => true
  | Json (JObj _) => true
  | Inherited _ => true
  end.

(** [v === false]. *)
Definition is_false (v : value) : bool :=
  match v with
  | Json (JBool false) => true
  | _ => false
  end.

(** The runtime errors of the fragment. *)
Inductive TypeError : Type :=
| CannotReadProperty (name : string)   (* property read on null or undefined *)
| InOperatorOnNonObject (key : string) (* right operand of [in] is no object *).

(** Property read [v.k] for the four names the client reads ([success],
    [error], [data], [response]).  No built-in prototype defines one of
    them, so on an object the read sees the own field or [undefined], on
    every other non-null value it is [undefined], and on [null] or
    [undefined] it throws. *)
Definition dot (v : value) (k : string) : TypeError + value :=
  match v with
  | Undefined => inl (CannotReadProperty k)
  | Json JNull => inl (CannotReadProperty k)
  | Json (JObj fs) =>
      inr (match own k fs with Some x => Json x | None => Undefined end)
  | _ => inr Undefined
  end.

(** Optional chaining [v?.k]: [undefined] where [v.k] would throw. *)
Definition opt_dot (v : value) (k : string) : value :=
  match dot v k with
  | inl _ => Undefined
  | inr x => x
  end.

(** The operator [k in v]: own and inherited properties of an object or an
    array; a [TypeError] on anything that is not an object.  (An inherited
    member is an object too; the client never applies [in] to one, since
    its operand is read out of a parsed response, and only the names of
    [Object.prototype] are accounted for there.) *)
Definition in_operator (k : string) (v : value) : TypeError + bool :=
  match v with
  | Json (JObj fs) =>
      inr (match own k fs with
           | Some _ => true
           | None => mem k Object_prototype
           end)
  | Json (JArr items) =>
      inr (match array_index k (length items) with
           | Some _ => true
           | None => String.eqb k "length" || mem k Array_prototype
                     || mem k Object_prototype
           end)
  | Inherited _ => inr (mem k Object_prototype)
  | Undefined | Json JNull | Json (JBool _) | Json (JNum _) | Json (JStr _) =>
      inl (InOperatorOnNonObject k)
  end.

(** Indexing [v[k]] of an object or an array with an arbitrary name: the
    own property first, then the prototype chain.  (The client indexes only
    after [k in v] has answered [true], so [v] is an object there.) *)
Definition index (v : value) (k : string) : value :=
  match v with
  | Json (JObj fs) =>
      match own k fs with
      | Some x => Json x
      | None => if mem k Object_prototype then Inherited k else Undefined
      end
  | Json (JArr items) =>
      match array_index k (length items) with
      | Some i => match nth_error items i with
                  | Some x => Json x
                  | None => Undefined
                  end
      | None =>
          if String.eqb k "length" then Json (JNum (Z.of_nat (length items)))
          else if mem k Array_prototype || mem k Object_prototype
               then Inherited k
               else Undefined
      end
  | _ => Undefined
  end.

(** [s.split(sep)] for a one-character separator: the maximal runs between
    separators, empty runs included; never the empty list. *)
Fixpoint split (sep : ascii) (s : string) : list string :=
  match s with
  | EmptyString => [EmptyString]
  | String c rest =>
      if Ascii.eqb c sep then EmptyString :: split sep rest
      else match split sep rest with
           | seg :: segs => String c seg :: segs
           | [] => [String c EmptyString]
           end
  end.

Definition space : ascii := ascii_of_nat 32.

(** [xs.slice(-1)]: the last element, if there is one. *)
Definition slice_last {A : Type} (xs : list A) : list A :=
  match rev xs with
  | [] => []
  | x :: _ => [x]
  end.

(** *** [JSON.stringify] *)

Definition char (n : nat) : string := String (ascii_of_nat n) EmptyString.

Definition hex_digit (n : nat) : string :=
  String (nth n (list_ascii_of_string "0123456789abcdef") (ascii_of_nat 48))
         EmptyString.

(** One character inside a JSON string literal: the quote and the
    backslash are escaped, control characters are written with their short
    escape or as a [\u00XX] escape. *)
Definition escape (c : ascii) : string :=
  let n := nat_of_ascii c in
  let bs := char 92 in
  if Nat.eqb n 34 then bs ++ char 34
  else if Nat.eqb n 92 then bs ++ bs
  else if Nat.eqb n 8 then bs ++ "b"
  else if Nat.eqb n 9 then bs ++ "t"
  else if Nat.eqb n 10 then bs ++ "n"
  else if Nat.eqb n 12 then bs ++ "f"
  else if Nat.eqb n 13 then bs ++ "r"
  else if Nat.ltb n 32
       then bs ++ "u00" ++ hex_digit (n / 16) ++ hex_digit (n mod 16)
  else String c EmptyString.

Fixpoint escape_all (s : string) : string :=
  match s with
  | EmptyString => EmptyString
  | String c rest => escape c ++ escape_all rest
  end.

Definition quote (s : string) : string := char 34 ++ escape_all s ++ char 34.

Definition string_of_Z (n : Z) : string := NilZero.string_of_int (Z.to_int n).

Fixpoint JSON_stringify (j : json) : string :=
  match j with
  | JNull => "null"
  | JBool true => "true"
  | JBool false => "false"
  | JNum n => string_of_Z n
  | JStr s => quote s
  | JArr items => "[" ++ String.concat "," (map JSON_stringify items) ++ "]"
  | JObj fields =>
      "{" ++ String.concat ","
               (map (fun kv => quote (fst kv) ++ ":" ++ JSON_stringify (snd kv))
                    fields)
          ++ "}"
  end.

End JS.

(* ================================================================== *)
(** ** The HTTP transport *)
(* ================================================================== *)

Module Axios.
Import JS.

(** The fields appended to a [FormData], in order. *)
Definition FormData : Type := list (string * string).

(** A request as it goes on the wire: the method, the instance's base URL,
    the URL given to the call (joined to the base URL by the transport) and
    the multipart body. *)
Record Request : Type := {
  method : string;
  baseURL : string;
  url : string;
  body : FormData
}.

(** What comes back from the network for one request: an HTTP answer with
    its status and parsed body, or nothing at all. *)
Inductive Exchange : Type :=
| Answered (status : Z) (data : json)
| NoResponse (cause : string).

(** The remote device and the network in front of it. *)
Definition Remote : Type := Request -> Exchange.

Record AxiosResponse : Type := {
  status : Z;
  data : json
}.

(** The rejection of a call: the answer had a status outside 2xx (the
    answer is attached as [err.response]), or there was no answer. *)
Inductive AxiosError : Type :=
| BadStatus (response : AxiosResponse)
| NetworkError (cause : string).

Definition response (e : AxiosError) : option AxiosResponse :=
  match e with
  | BadStatus r => Some r
  | NetworkError _ => None
  end.

(** Everything a [throw] or a rejected promise can carry in the client. *)
Inductive Thrown : Type :=
| ThrownValue (v : value)
| ThrownAxios (e : AxiosError)
| ThrownTypeError (e : TypeError).

(** How an [async] computation settles. *)
Inductive Settled (A : Type) : Type :=
| Resolved (a : A)
| Rejected (e : Thrown).
Arguments Resolved {A} a.
Arguments Rejected {A} e.

(** An [async] computation: it runs against a remote, appends the requests
    it issues to the log of requests issued so far, and settles. *)
Definition Async (A : Type) : Type :=
  Remote -> list Request -> Settled A * list Request.

Definition ret {A : Type} (a : A) : Async A :=
  fun _ log => (Resolved a, log).

Definition throw {A : Type} (e : Thrown) : Async A :=
  fun _ log => (Rejected e, log).

Definition bind {A B : Type} (m : Async A) (k : A -> Async B) : Async B :=
  fun net log =>
    match m net log with
    | (Resolved a, log') => k a net log'
    | (Rejected e, log') => (Rejected e, log')
    end.

Definition try_catch {A : Type} (m : Async A) (handler : Thrown -> Async A)
  : Async A :=
  fun net log =>
    match m net log with
    | (Resolved a, log') => (Resolved a, log')
    | (Rejected e, log') => handler e net log'
    end.

(** An expression that may raise a [TypeError]. *)
Definition eval {A : Type} (r : TypeError + A) : Async A :=
  match r with
  | inl e => throw (ThrownTypeError e)
  | inr a => ret a
  end.

(** Run a computation from an empty log. *)
Definition run {A : Type} (m : Async A) (net : Remote)
  : Settled A * list Request :=
  m net [].

(** The configuration [axios.create] is given. *)
Record AxiosInstance : Type := {
  config_baseURL : string;
  rejectUnauthorized : bool;
  transformRequest : json -> FormData
}.

(** The default [validateStatus]. *)
Definition validateStatus (status : Z) : bool :=
  (200 <=? status)%Z && (status <? 300)%Z.

(** [instance.post(url, payload)]: one request, one exchange. *)
Definition post (instance : AxiosInstance) (url : string) (payload : json)
  : Async AxiosResponse :=
  fun net log =>
    let req := {| method := "POST";
                  baseURL := config_baseURL instance;
                  url := url;
                  body := transformRequest instance payload |} in
    (match net req with
     | Answered st d =>
         let r := {| status := st; data := d |} in
         if validateStatus st then Resolved r
         else Rejected (ThrownAxios (BadStatus r))
     | NoResponse cause => Rejected (ThrownAxios (NetworkError cause))
     end,
     (log ++ [req])%list).

End Axios.

Notation "x <- m ;; k" := (Axios.bind m (fun x => k))
  (at level 61, m at next level, right associativity).

(* ================================================================== *)
(** ** The client *)
(* ================================================================== *)

Import JS.
Import Axios.

(** The envelope of a response ([interface Response]).  It is a reading of
    a parsed body, not something the client checks. *)
Record Response : Type := {
  success : bool;
  data : json;
  error : option string
}.

(** A parsed body read as an envelope: an object with a boolean [success],
    a [data], and an [error] that is a string, [null] or left out. *)
Definition as_Response (b : json) : option Response :=
  match b with
  | JObj fs =>
      match own "success" fs, own "data" fs with
      | Some (JBool s), Some d =>
          match own "error" fs with
          | Some (JStr e) => Some {| success := s; data := d; error := Some e |}
          | Some JNull | None =>
              Some {| success := s; data := d; error := None |}
          | Some _ => None
          end
      | _, _ => None
      end
  | _ => None
  end.

(** [class Vyos]: the private transport handle is all its state. *)
Record Vyos : Type := {
  client : AxiosInstance
}.

Section Constructor.

(** [new URL(url).href] of the runtime: the normalised URL, or nothing
    where the constructor of [URL] throws. *)
Variable URL_href : string -> option string.

Definition new_Vyos (url key : string) : option Vyos :=
  match URL_href url with
  | None => None
  | Some href =>
      Some {| client :=
                {| config_baseURL := href;
                   rejectUnauthorized := false;
                   transformRequest := fun data =>
                     [ ("key", key); ("data", JSON_stringify data) ] |} |}
  end.

End Constructor.

(** [err?.response?.data] *)
Definition response_data (err : Thrown) : value :=
  match err with
  | ThrownAxios e =>
      match Axios.response e with
      | Some r => Json (Axios.data r)
      | None => Undefined
      end
  | ThrownValue v => opt_dot (opt_dot v "response") "data"
  | ThrownTypeError _ => Undefined
  end.

(** [Vyos.request] *)
Definition request (this : Vyos) (endpoint : string) (payload : json)
  : Async json :=
  try_catch
    (r <- post (client this) endpoint payload ;;
     let body := Json (Axios.data r) in
     s <- eval (dot body "success") ;;
     if is_false s then
       e <- eval (dot body "error") ;;
       if truthy e then throw (ThrownValue e) else ret (Axios.data r)
     else ret (Axios.data r))
    (fun err =>
       let body := response_data err in
       if is_false (opt_dot body "success") && truthy (opt_dot body "error")
       then throw (ThrownValue (opt_dot body "error"))
       else throw err).

(** [path.split(' ')] as the [path] field of a payload. *)
Definition segments (path : string) : list string := split space path.

Definition path_field (components : list string) : json :=
  JArr (map JStr components).

Module VyosConfig.

Definition set (vyos : Vyos) (path value : string) : Async JS.value :=
  body <- request vyos "configure"
            (JObj [ ("op", JStr "set");
                    ("path", path_field (segments path));
                    ("value", JStr value) ]) ;;
  ret (Json body).

Definition delete (vyos : Vyos) (path : string) : Async value :=
  _ <- request vyos "configure"
         (JObj [ ("op", JStr "delete");
                 ("path", path_field (segments path)) ]) ;;
  ret Undefined.

Definition show (vyos : Vyos) (path : string) : Async value :=
  let components := segments path in
  let terminal := match slice_last components with
                  | t :: _ => t
                  | [] => "undefined"
                  end in
  body <- request vyos "retrieve"
            (JObj [ ("op", JStr "showConfig");
                    ("path", path_field components) ]) ;;
  data <- eval (dot (Json body) "data") ;;
  found <- eval (in_operator terminal data) ;;
  ret (if found : bool then index data terminal else data).

Definition comment (vyos : Vyos) (path value : string) : Async JS.value :=
  _ <- request vyos "configure"
         (JObj [ ("op", JStr "comment");
                 ("path", path_field (segments path));
                 ("value", JStr value) ]) ;;
  ret Undefined.

Definition default_file : string := "/config/config.boot".

Definition save (vyos : Vyos) (file : option string) : Async value :=
  let file := match file with Some f => f | None => default_file end in
  _ <- request vyos "config-file"
         (JObj [ ("op", JStr "save"); ("value", JStr file) ]) ;;
  ret Undefined.

Definition load (vyos : Vyos) (file : option string) : Async value :=
  let file := match file with Some f => f | None => default_file end in
  _ <- request vyos "config-file"
         (JObj [ ("op", JStr "load"); ("value", JStr file) ]) ;;
  ret Undefined.

End VyosConfig.

Module VyosImages.

Definition add (vyos : Vyos) (url : string) : Async value :=
  _ <- request vyos "image"
         (JObj [ ("op", JStr "add"); ("url", JStr url) ]) ;;
  ret Undefined.

Definition remove (vyos : Vyos) (name : string) : Async value :=
  _ <- request vyos "image"
         (JObj [ ("op", JStr "delete"); ("name", JStr name) ]) ;;
  ret Undefined.

End VyosImages.

Module VyosOps.

Definition show (vyos : Vyos) (path : string) : Async value :=
  body <- request vyos "show"
            (JObj [ ("op", JStr "show");
                    ("path", path_field (segments path)) ]) ;;
  eval (dot (Json body) "data").

Definition generate (vyos : Vyos) (path : string) : Async value :=
  body <- request vyos "generate"
            (JObj [ ("op", JStr "generate");
                    ("path", path_field (segments path)) ]) ;;
  ret (Json body).

End VyosOps.

(** The test both branches of [request] make on a body:
    [body?.success === false && body?.error]. *)
Definition reports_failure (b : json) : bool :=
  is_false (opt_dot (Json b) "success") && truthy (opt_dot (Json b) "error").

(** The REPL front-end ([repl.js]): it reads [URL] and [KEY] from the
    environment (after [dotenv] has filled it in), gives up with a
    diagnostic when one is missing, and otherwise starts a prompt whose
    context holds a client. *)
Module Repl.

(** How the script ends up. *)
Inductive Outcome : Type :=
| Exited (code : Z) (stderr : list string)
    (* [console.error] of each line, then [process.exit(code)] *)
| Started (prompt : string) (v : Vyos)
    (* the prompt is running and [context.v] is the client *)
| Threw (prompt : string)
    (* the prompt was started, then [new Vyos] threw *).

Section Main.

Variable URL_href : string -> option string.

(** [process.env]: a variable is a string or is not set.  [!x] holds for
    a variable that is not set and for the empty string.  In the last
    statement the target [repl.start('v> ').context] is evaluated before
    the right-hand side [new Vyos(url, key)]. *)
Definition main (env : string -> option string) : Outcome :=
  match env "URL" with
  | None | Some EmptyString =>
      Exited 1 ["Missing URL! Please set URL or add it to .env"]
  | Some url =>
      match env "KEY" with
      | None | Some EmptyString =>
          Exited 1 ["Missing API Key! Please set KEY or add it to .env"]
      | Some key =>
          match new_Vyos URL_href url key with
          | Some v => Started "v> " v
          | None => Threw "v> "
          end
      end
  end.

End Main.

End Repl.

(** The request that [request this endpoint payload] puts on the wire. *)
Definition wire (this : Vyos) (endpoint : string) (payload : json) : Request :=
  {| method := "POST";
     baseURL := config_baseURL (client this);
     url := endpoint;
     body := transformRequest (client this) payload |}.

(** The two failures the interface distinguishes, as the client raises
    them: the remote's own message, thrown as it is, and the transport's
    error, passed on as it is. *)
Definition RemoteOperationError (message : string) : Thrown :=
  ThrownValue (Json (JStr message)).

Definition TransportError (cause : AxiosError) : Thrown :=
  ThrownAxios cause.

(** The payloads of the interface, one per operation: the discriminator
    [op] first, then the arguments, in the order the fields are written. *)
Module Descriptor.

Definition set (path : list string) (value : string) : json :=
  JObj [ ("op", JStr "set"); ("path", JArr (map JStr path));
         ("value", JStr value) ].

Definition delete (path : list string) : json :=
  JObj [ ("op", JStr "delete"); ("path", JArr (map JStr path)) ].

Definition showConfig (path : list string) : json :=
  JObj [ ("op", JStr "showConfig"); ("path", JArr (map JStr path)) ].

Definition comment (path : list string) (value : string) : json :=
  JObj [ ("op", JStr "comment"); ("path", JArr (map JStr path));
         ("value", JStr value) ].

Definition save (file : string) : json :=
  JObj [ ("op", JStr "save"); ("value", JStr file) ].

Definition load (file : string) : json :=
  JObj [ ("op", JStr "load"); ("value", JStr file) ].

Definition add (url : string) : json :=
  JObj [ ("op", JStr "add"); ("url", JStr url) ].

Definition remove (name : string) : json :=
  JObj [ ("op", JStr "delete"); ("name", JStr name) ].

Definition show (path : list string) : json :=
  JObj [ ("op", JStr "show"); ("path", JArr (map JStr path)) ].

Definition generate (path : list string) : json :=
  JObj [ ("op", JStr "generate"); ("path", JArr (map JStr path)) ].

End Descriptor.

(** One POST of a multipart body with the two fields [key] and [data]. *)
Definition multipart_post (base endpoint key : string) (descriptor : json)
  : Request :=
  {| method := "POST";
     baseURL := base;
     url := endpoint;
     body := [ ("key", key); ("data", JSON_stringify descriptor) ] |}.

(** The last segment of a path. *)
Definition last_segment (path : string) : string :=
  last (segments path) EmptyString.

(** Objects and arrays are the values [in] accepts as its right operand. *)
Definition is_object (j : json) : bool :=
  match j with
  | JObj _ | JArr _ => true
  | _ => false
  end.

(** A segment with at least one character. *)
Definition nonempty (s : string) : bool :=
  match s with
  | EmptyString => false
  | String _ _ => true
  end.

(** A segment without a space in it. *)
Definition spaceless (s : string) : Prop :=
  ~ In space (list_ascii_of_string s).

(** The number of spaces of a path. *)
Definition count_spaces (s : string) : nat :=
  length (filter (Ascii.eqb space) (list_ascii_of_string s)).

(** A path is tidy when it is not empty and no space stands at its start,
    at its end, or right after another space.  [after_space] tells whether
    the position read is the start of the path or follows a space. *)
Fixpoint tidy_from (after_space : bool) (path : string) : bool :=
  match path with
  | EmptyString => negb after_space
  | String c rest =>
      if Ascii.eqb c space then negb after_space && tidy_from true rest
      else tidy_from false rest
  end.

Definition tidy (path : string) : bool := tidy_from true path.

(** [issues m reqs]: whatever the remote answers and however [m] settles,
    running [m] appends exactly [reqs] to the log. *)
Definition issues {A : Type} (m : Async A) (reqs : list Request) : Prop :=
  forall net log, snd (m net log) = (log ++ reqs)%list.

(** *** Fixtures *)

Module Fixture.

(** A URL parser that is enough for origins without a path: it appends
    the root path, as [new URL(origin).href] does. *)
Definition href_of_origin (u : string) : option string := Some (u ++ "/").

(** [new Vyos('https://my-vyos.local', 'API-KEY')] *)
Definition my_vyos : Vyos :=
  {| client :=
       {| config_baseURL := "https://my-vyos.local/";
          rejectUnauthorized := false;
          transformRequest := fun data =>
            [ ("key", "API-KEY"); ("data", JSON_stringify data) ] |} |}.

(** [{ success: s, data: d, error: e }] *)
Definition envelope (s : bool) (d e : json) : json :=
  JObj [ ("success", JBool s); ("data", d); ("error", e) ].

(** [{ success: true, data: 'my-vyos', error: null }] *)
Definition host_name_answer : json := envelope true (JStr "my-vyos") JNull.

(** [{ success: true, data: null, error: null }] *)
Definition done_answer : json := envelope true JNull JNull.

(** [{ success: true, data: { a: 1, b: 2 }, error: null }] *)
Definition a_b_answer : json :=
  envelope true (JObj [ ("a", JNum 1); ("b", JNum 2) ]) JNull.

(** [{ success: true, data: { 'host-name': 'my-vyos' }, error: null }] *)
Definition system_answer : json :=
  envelope true (JObj [ ("host-name", JStr "my-vyos") ]) JNull.

(** [{ success: false, data: null, error: 'Configuration path is empty' }] *)
Definition failure_answer : json :=
  envelope false JNull (JStr "Configuration path is empty").

(** [{ op: 'showConfig', path: ['system', 'host-name'] }] *)
Definition show_host_name : json :=
  JObj [ ("op", JStr "showConfig");
         ("path", JArr [JStr "system"; JStr "host-name"]) ].

(** The page of a gateway in front of the device that is down. *)
Definition bad_gateway_page : json := JStr "<html>502 Bad Gateway</html>".

(** A remote that gives every request the same answer. *)
Definition answering (status : Z) (b : json) : Remote :=
  fun _ => Answered status b.

(** A remote that cannot be reached. *)
Definition unreachable (cause : string) : Remote :=
  fun _ => NoResponse cause.

End Fixture.

(* ================================================================== *)
(** ** Properties *)
(* ================================================================== *)

(** *** Reading envelopes *)

Lemma as_Response_fields (b : json) (r : Response) :
  as_Response b = Some r ->
  exists fs,
    b = JObj fs /\
    own "success" fs = Some (JBool (success r)) /\
    own "data" fs = Some (data r) /\
    match error r with
    | Some e => own "error" fs = Some (JStr e)
    | None => own "error" fs = Some JNull \/ own "error" fs = None
    end.
Proof.
  destruct b as [| | | | |fs]; simpl; try discriminate.
  destruct (own "success" fs) as [[| s | | | |]|] eqn:Hs; try discriminate.
  destruct (own "data" fs) as [d|] eqn:Hd; try discriminate.
  destruct (own "error" fs) as [[| | | e | |]|] eqn:He; try discriminate;
    intros [= <-]; exists fs; simpl; auto.
Qed.

(** *** What a computation puts on the wire *)

Section Issues.

Context {A B : Type}.

Lemma issues_ret (a : A) : issues (ret a) [].
Proof. intros net log. simpl. now rewrite app_nil_r. Qed.

Lemma issues_throw (e : Thrown) : issues (@throw A e) [].
Proof. intros net log. simpl. now rewrite app_nil_r. Qed.

Lemma issues_eval (r : TypeError + A) : issues (eval r) [].
Proof. destruct r; [apply issues_throw | apply issues_ret]. Qed.

Lemma issues_then (m : Async A) (k : A -> Async B) (r : list Request) :
  issues m r -> (forall a, issues (k a) []) -> issues (bind m k) r.
Proof.
  intros Hm Hk net log. unfold bind.
  specialize (Hm net log).
  destruct (m net log) as [[a | e] log'] eqn:E; simpl in *; subst log'.
  - rewrite Hk. now rewrite app_nil_r.
  - reflexivity.
Qed.

Lemma issues_try_catch (m : Async A) (h : Thrown -> Async A)
    (r : list Request) :
  issues m r -> (forall e, issues (h e) []) -> issues (try_catch m h) r.
Proof.
  intros Hm Hh net log. unfold try_catch.
  specialize (Hm net log).
  destruct (m net log) as [[a | e] log'] eqn:E; simpl in *; subst log'.
  - reflexivity.
  - rewrite Hh. now rewrite app_nil_r.
Qed.

End Issues.

Lemma issues_post (instance : AxiosInstance) (url : string) (payload : json) :
  issues (post instance url payload)
    [ {| method := "POST"; baseURL := config_baseURL instance; url := url;
         body := transformRequest instance payload |} ].
Proof. intros net log. reflexivity. Qed.

Create HintDb issues.
#[local] Hint Resolve issues_ret issues_throw issues_eval : issues.

(** *** The gateway *)

(** Whatever the remote does, [request] puts exactly one request on the
    wire. *)
Lemma request_issues (this : Vyos) (endpoint : string) (payload : json) :
  issues (request this endpoint payload) [wire this endpoint payload].
Proof.
  unfold request. apply issues_try_catch.
  - apply issues_then; [apply issues_post |]. intros r.
    apply issues_then; [auto with issues |]. intros s.
    destruct (is_false s); [| auto with issues].
    apply issues_then; [auto with issues |]. intros e.
    destruct (truthy e); auto with issues.
  - intros e. destruct (_ && _); auto with issues.
Qed.

Section Gateway.

Variables (this : Vyos) (endpoint : string) (payload : json).
Variables (net : Remote) (log : list Request).

(** No answer: the transport's error is passed on. *)
Lemma request_no_response (cause : string) :
  net (wire this endpoint payload) = NoResponse cause ->
  request this endpoint payload net log
  = (Rejected (TransportError (NetworkError cause)), (log ++ [wire this endpoint payload])%list).
Proof.
  intros H. unfold request, try_catch, bind, post.
  fold (wire this endpoint payload). rewrite H. reflexivity.
Qed.

(** A failing envelope with a message, on any status: the message is
    thrown. *)
Lemma request_failing_envelope (st : Z) (b : json) (r : Response)
    (message : string) :
  net (wire this endpoint payload) = Answered st b ->
  as_Response b = Some r ->
  success r = false ->
  error r = Some message ->
  message <> EmptyString ->
  request this endpoint payload net log
  = (Rejected (RemoteOperationError message), (log ++ [wire this endpoint payload])%list).
Proof.
  intros H Hb Hs He Hm.
  destruct (as_Response_fields _ _ Hb) as (fs & -> & Hsucc & _ & Herr).
  rewrite Hs in Hsucc. rewrite He in Herr.
  destruct message as [| c rest]; [congruence |].
  unfold request, try_catch, bind, post.
  fold (wire this endpoint payload). rewrite H.
  destruct (validateStatus st); simpl.
  - rewrite Hsucc. simpl. rewrite Herr. reflexivity.
  - unfold opt_dot. simpl. rewrite Hsucc, Herr. reflexivity.
Qed.

(** A succeeding envelope on a 2xx status: the body is returned as it
    is. *)
Lemma request_succeeding_envelope (st : Z) (b : json) (r : Response) :
  net (wire this endpoint payload) = Answered st b ->
  validateStatus st = true ->
  as_Response b = Some r ->
  success r = true ->
  request this endpoint payload net log
  = (Resolved b, (log ++ [wire this endpoint payload])%list).
Proof.
  intros H Hst Hb Hs.
  destruct (as_Response_fields _ _ Hb) as (fs & -> & Hsucc & _ & _).
  rewrite Hs in Hsucc.
  unfold request, try_catch, bind, post.
  fold (wire this endpoint payload). rewrite H, Hst. simpl.
  rewrite Hsucc. reflexivity.
Qed.

(** An answer on a status outside 2xx whose body does not read as a
    failure with a message: the transport's error is passed on, with the
    answer attached. *)
Lemma request_bad_status (st : Z) (b : json) :
  net (wire this endpoint payload) = Answered st b ->
  validateStatus st = false ->
  is_false (opt_dot (Json b) "success") && truthy (opt_dot (Json b) "error")
  = false ->
  request this endpoint payload net log
  = (Rejected (TransportError (BadStatus {| status := st; Axios.data := b |})),
     (log ++ [wire this endpoint payload])%list).
Proof.
  intros H Hst Hb.
  unfold request, try_catch, bind, post.
  fold (wire this endpoint payload). rewrite H, Hst. simpl.
  rewrite Hb. reflexivity.
Qed.

End Gateway.

(** *** The facades: what they put on the wire *)

Ltac one_request :=
  apply issues_then; [apply request_issues | intros; auto with issues].

Section FacadeRequests.

Variable this : Vyos.

Lemma set_issues (path value : string) :
  issues (VyosConfig.set this path value)
    [wire this "configure" (Descriptor.set (segments path) value)].
Proof. unfold VyosConfig.set. one_request. Qed.

Lemma delete_issues (path : string) :
  issues (VyosConfig.delete this path)
    [wire this "configure" (Descriptor.delete (segments path))].
Proof. unfold VyosConfig.delete. one_request. Qed.

Lemma config_show_issues (path : string) :
  issues (VyosConfig.show this path)
    [wire this "retrieve" (Descriptor.showConfig (segments path))].
Proof.
  unfold VyosConfig.show. one_request.
  apply issues_then; [auto with issues |]. intros d.
  apply issues_then; auto with issues.
Qed.

Lemma comment_issues (path value : string) :
  issues (VyosConfig.comment this path value)
    [wire this "configure" (Descriptor.comment (segments path) value)].
Proof. unfold VyosConfig.comment. one_request. Qed.

Lemma save_issues (file : option string) :
  issues (VyosConfig.save this file)
    [wire this "config-file"
       (Descriptor.save
          (match file with Some f => f | None => "/config/config.boot" end))].
Proof. unfold VyosConfig.save. one_request. Qed.

Lemma load_issues (file : option string) :
  issues (VyosConfig.load this file)
    [wire this "config-file"
       (Descriptor.load
          (match file with Some f => f | None => "/config/config.boot" end))].
Proof. unfold VyosConfig.load. one_request. Qed.

Lemma add_issues (url : string) :
  issues (VyosImages.add this url) [wire this "image" (Descriptor.add url)].
Proof. unfold VyosImages.add. one_request. Qed.

Lemma remove_issues (name : string) :
  issues (VyosImages.remove this name)
    [wire this "image" (Descriptor.remove name)].
Proof. unfold VyosImages.remove. one_request. Qed.

Lemma ops_show_issues (path : string) :
  issues (VyosOps.show this path)
    [wire this "show" (Descriptor.show (segments path))].
Proof. unfold VyosOps.show. one_request. Qed.

Lemma generate_issues (path : string) :
  issues (VyosOps.generate this path)
    [wire this "generate" (Descriptor.generate (segments path))].
Proof. unfold VyosOps.generate. one_request. Qed.

End FacadeRequests.

Lemma issues_run {A : Type} (m : Async A) (reqs : list Request) (net : Remote) :
  issues m reqs -> snd (run m net) = reqs.
Proof. intros H. unfold run. now rewrite H. Qed.

(* ------------------------------------------------------------------ *)
(** *** Failures reported by the remote *)

(** C1.  A response envelope whose success flag is false and whose error
    message is present -- a non-empty string, which is what the test
    [body.error] of the code lets through -- makes [request] fail with the
    [RemoteOperationError] that carries exactly that string, after one
    request; the failure is the same on a 2xx status and on a status
    outside 2xx. *)
Theorem failing_envelope_rejects_on_any_status
    (this : Vyos) (endpoint : string) (payload : json)
    (net2xx net5xx : Remote) (st2xx st5xx : Z)
    (b : json) (r : Response) (message : string) :
  as_Response b = Some r ->
  success r = false ->
  error r = Some message ->
  message <> EmptyString ->
  validateStatus st2xx = true ->
  validateStatus st5xx = false ->
  net2xx (wire this endpoint payload) = Answered st2xx b ->
  net5xx (wire this endpoint payload) = Answered st5xx b ->
  run (request this endpoint payload) net2xx
  = (Rejected (RemoteOperationError message), [wire this endpoint payload]) /\
  run (request this endpoint payload) net5xx
  = (Rejected (RemoteOperationError message), [wire this endpoint payload]).
Proof.
  intros Hb Hs He Hm _ _ H2 H5. unfold run. split.
  - now rewrite (request_failing_envelope _ _ _ _ _ _ _ _ _ H2 Hb Hs He Hm).
  - now rewrite (request_failing_envelope _ _ _ _ _ _ _ _ _ H5 Hb Hs He Hm).
Qed.

Lemma failing_envelope_rejects_on_200_and_500 :
  run (request Fixture.my_vyos "retrieve" Fixture.show_host_name)
      (Fixture.answering 200 Fixture.failure_answer)
  = (Rejected (RemoteOperationError "Configuration path is empty"),
     [wire Fixture.my_vyos "retrieve" Fixture.show_host_name]) /\
  run (request Fixture.my_vyos "retrieve" Fixture.show_host_name)
      (Fixture.answering 500 Fixture.failure_answer)
  = (Rejected (RemoteOperationError "Configuration path is empty"),
     [wire Fixture.my_vyos "retrieve" Fixture.show_host_name]).
Proof.
  apply (failing_envelope_rejects_on_any_status
           Fixture.my_vyos "retrieve" Fixture.show_host_name
           (Fixture.answering 200 Fixture.failure_answer)
           (Fixture.answering 500 Fixture.failure_answer)
           200 500 Fixture.failure_answer
           {| success := false; data := JNull;
              error := Some "Configuration path is empty" |}
           "Configuration path is empty");
    try reflexivity; discriminate.
Defined.

(* ------------------------------------------------------------------ *)
(** *** Successful exchanges *)

(** C2, as the code has it.  A response envelope whose success flag is
    true makes [request], after one request, resolve on a 2xx status with
    the whole envelope, unchanged -- the envelope's data is its [data]
    field, untouched -- and reject on every other status with the
    transport's error, which carries the answer. *)
Theorem succeeding_envelope_resolves_with_envelope
    (this : Vyos) (endpoint : string) (payload : json) (net : Remote)
    (st : Z) (b : json) (r : Response) :
  net (wire this endpoint payload) = Answered st b ->
  as_Response b = Some r ->
  success r = true ->
  (validateStatus st = true ->
   run (request this endpoint payload) net
   = (Resolved b, [wire this endpoint payload]) /\
   dot (Json b) "data" = inr (Json (data r))) /\
  (validateStatus st = false ->
   run (request this endpoint payload) net
   = (Rejected (TransportError (BadStatus {| status := st; Axios.data := b |})),
      [wire this endpoint payload])).
Proof.
  intros H Hb Hs. split; intros Hst.
  - split.
    + unfold run.
      now rewrite (request_succeeding_envelope _ _ _ _ _ _ _ _ H Hst Hb Hs).
    + destruct (as_Response_fields _ _ Hb) as (fs & -> & _ & Hd & _).
      simpl. now rewrite Hd.
  - unfold run.
    rewrite (request_bad_status _ _ _ _ _ _ _ H Hst); [reflexivity |].
    destruct (as_Response_fields _ _ Hb) as (fs & -> & Hsucc & _ & _).
    rewrite Hs in Hsucc. unfold opt_dot. simpl. rewrite Hsucc. reflexivity.
Qed.

Lemma succeeding_envelope_resolves_with_envelope_200 :
  (run (request Fixture.my_vyos "retrieve" Fixture.show_host_name)
       (Fixture.answering 200 Fixture.host_name_answer)
   = (Resolved Fixture.host_name_answer,
      [wire Fixture.my_vyos "retrieve" Fixture.show_host_name]) /\
   dot (Json Fixture.host_name_answer) "data" = inr (Json (JStr "my-vyos"))) /\
  run (request Fixture.my_vyos "retrieve" Fixture.show_host_name)
      (Fixture.answering 503 Fixture.host_name_answer)
  = (Rejected (TransportError
                 (BadStatus {| status := 503;
                               Axios.data := Fixture.host_name_answer |})),
     [wire Fixture.my_vyos "retrieve" Fixture.show_host_name]).
Proof.
  split.
  - apply (succeeding_envelope_resolves_with_envelope
             Fixture.my_vyos "retrieve" Fixture.show_host_name
             (Fixture.answering 200 Fixture.host_name_answer) 200
             Fixture.host_name_answer
             {| success := true; data := JStr "my-vyos"; error := None |});
      reflexivity.
  - apply (succeeding_envelope_resolves_with_envelope
             Fixture.my_vyos "retrieve" Fixture.show_host_name
             (Fixture.answering 503 Fixture.host_name_answer) 503
             Fixture.host_name_answer
             {| success := true; data := JStr "my-vyos"; error := None |});
      reflexivity.
Defined.

(** The envelope [{ success: true, data: 'my-vyos', error: null }]: on
    status 200 [request] resolves with the envelope, which is not its
    data; on status 500 it does not resolve at all. *)
Lemma request_does_not_resolve_with_data :
  as_Response Fixture.host_name_answer
  = Some {| success := true; data := JStr "my-vyos"; error := None |} /\
  fst (run (request Fixture.my_vyos "retrieve" Fixture.show_host_name)
           (Fixture.answering 200 Fixture.host_name_answer))
  = Resolved Fixture.host_name_answer /\
  fst (run (request Fixture.my_vyos "retrieve" Fixture.show_host_name)
           (Fixture.answering 200 Fixture.host_name_answer))
  <> Resolved (JStr "my-vyos") /\
  fst (run (request Fixture.my_vyos "retrieve" Fixture.show_host_name)
           (Fixture.answering 500 Fixture.host_name_answer))
  = Rejected (TransportError
                (BadStatus {| status := 500;
                              Axios.data := Fixture.host_name_answer |})).
Proof. repeat split; try reflexivity. discriminate. Qed.

(* ------------------------------------------------------------------ *)
(** *** Failures of the transport *)

(** C4.  When no answer comes back, [request] fails with the
    [TransportError] that carries the transport's own error -- never with
    a value thrown on behalf of the remote -- and exactly one request has
    been issued: nothing is tried again. *)
Theorem no_response_is_transport_error
    (this : Vyos) (endpoint : string) (payload : json) (net : Remote)
    (cause : string) :
  net (wire this endpoint payload) = NoResponse cause ->
  run (request this endpoint payload) net
  = (Rejected (TransportError (NetworkError cause)),
     [wire this endpoint payload]) /\
  forall v, fst (run (request this endpoint payload) net)
            <> Rejected (ThrownValue v).
Proof.
  intros H. unfold run.
  rewrite (request_no_response _ _ _ _ _ _ H). split; [reflexivity |].
  intros v. simpl. discriminate.
Qed.

Lemma connection_refused_is_transport_error :
  run (request Fixture.my_vyos "retrieve" Fixture.show_host_name)
      (Fixture.unreachable "ECONNREFUSED")
  = (Rejected (TransportError (NetworkError "ECONNREFUSED")),
     [wire Fixture.my_vyos "retrieve" Fixture.show_host_name]) /\
  forall v,
    fst (run (request Fixture.my_vyos "retrieve" Fixture.show_host_name)
             (Fixture.unreachable "ECONNREFUSED"))
    <> Rejected (ThrownValue v).
Proof.
  apply (no_response_is_transport_error
           Fixture.my_vyos "retrieve" Fixture.show_host_name
           (Fixture.unreachable "ECONNREFUSED") "ECONNREFUSED").
  reflexivity.
Defined.

(* ------------------------------------------------------------------ *)
(** *** One POST per call *)

(** C5.  For a client built from a URL and a key, [request] with endpoint
    [E] and descriptor [D] issues exactly one request, whatever the remote
    does: a POST to [E] under the base URL of the client, whose multipart
    body has exactly the two fields [key], holding the configured key, and
    [data], holding the JSON text of [D].  Every operation of the facades
    issues exactly that one request, with its fixed endpoint: [configure]
    for set, delete and comment, [retrieve] for showConfig, [config-file]
    for save and load, [image] for add and delete, [show] for show and
    [generate] for generate. *)
Theorem one_multipart_post_per_call
    (URL_href : string -> option string) (url key : string) (this : Vyos) :
  new_Vyos URL_href url key = Some this ->
  exists href,
    URL_href url = Some href /\
    (forall endpoint descriptor net,
        snd (run (request this endpoint descriptor) net)
        = [multipart_post href endpoint key descriptor]) /\
    (forall net path value,
        snd (run (VyosConfig.set this path value) net)
        = [multipart_post href "configure" key
             (Descriptor.set (segments path) value)]) /\
    (forall net path,
        snd (run (VyosConfig.delete this path) net)
        = [multipart_post href "configure" key
             (Descriptor.delete (segments path))]) /\
    (forall net path value,
        snd (run (VyosConfig.comment this path value) net)
        = [multipart_post href "configure" key
             (Descriptor.comment (segments path) value)]) /\
    (forall net path,
        snd (run (VyosConfig.show this path) net)
        = [multipart_post href "retrieve" key
             (Descriptor.showConfig (segments path))]) /\
    (forall net file,
        snd (run (VyosConfig.save this file) net)
        = [multipart_post href "config-file" key
             (Descriptor.save
                (match file with
                 | Some f => f
                 | None => "/config/config.boot"
                 end))]) /\
    (forall net file,
        snd (run (VyosConfig.load this file) net)
        = [multipart_post href "config-file" key
             (Descriptor.load
                (match file with
                 | Some f => f
                 | None => "/config/config.boot"
                 end))]) /\
    (forall net image_url,
        snd (run (VyosImages.add this image_url) net)
        = [multipart_post href "image" key (Descriptor.add image_url)]) /\
    (forall net name,
        snd (run (VyosImages.remove this name) net)
        = [multipart_post href "image" key (Descriptor.remove name)]) /\
    (forall net path,
        snd (run (VyosOps.show this path) net)
        = [multipart_post href "show" key (Descriptor.show (segments path))]) /\
    (forall net path,
        snd (run (VyosOps.generate this path) net)
        = [multipart_post href "generate" key
             (Descriptor.generate (segments path))]).
Proof.
  unfold new_Vyos. destruct (URL_href url) as [href |]; [| discriminate].
  intros [= <-]. exists href. split; [reflexivity |].
  repeat split; intros.
  - exact (issues_run _ _ _ (request_issues _ _ _)).
  - exact (issues_run _ _ _ (set_issues _ _ _)).
  - exact (issues_run _ _ _ (delete_issues _ _)).
  - exact (issues_run _ _ _ (comment_issues _ _ _)).
  - exact (issues_run _ _ _ (config_show_issues _ _)).
  - exact (issues_run _ _ _ (save_issues _ file)).
  - exact (issues_run _ _ _ (load_issues _ file)).
  - exact (issues_run _ _ _ (add_issues _ _)).
  - exact (issues_run _ _ _ (remove_issues _ _)).
  - exact (issues_run _ _ _ (ops_show_issues _ _)).
  - exact (issues_run _ _ _ (generate_issues _ _)).
Qed.

Lemma one_multipart_post_for_set_host_name :
  snd (run (VyosConfig.set Fixture.my_vyos "system host-name" "my-vyos")
           (Fixture.unreachable "ETIMEDOUT"))
  = [multipart_post "https://my-vyos.local/" "configure" "API-KEY"
       (Descriptor.set ["system"; "host-name"] "my-vyos")].
Proof.
  destruct (one_multipart_post_per_call
              Fixture.href_of_origin "https://my-vyos.local" "API-KEY"
              Fixture.my_vyos eq_refl)
    as (href & Hhref & _ & Hset & _).
  injection Hhref as <-.
  exact (Hset (Fixture.unreachable "ETIMEDOUT") "system host-name" "my-vyos").
Defined.

(* ------------------------------------------------------------------ *)
(** *** The default configuration file *)

(** C9.  Called without a file, [config.save] and [config.load] send a
    descriptor whose file value is exactly [/config/config.boot]. *)
Theorem save_load_default_file (this : Vyos) (net : Remote) :
  snd (run (VyosConfig.save this None) net)
  = [wire this "config-file" (Descriptor.save "/config/config.boot")] /\
  snd (run (VyosConfig.load this None) net)
  = [wire this "config-file" (Descriptor.load "/config/config.boot")].
Proof.
  split.
  - exact (issues_run _ _ _ (save_issues _ None)).
  - exact (issues_run _ _ _ (load_issues _ None)).
Qed.

(* ------------------------------------------------------------------ *)
(** *** Splitting paths *)

Section Split.

Variable sep : ascii.

Lemma split_not_nil (s : string) : split sep s <> [].
Proof.
  destruct s as [| c rest]; simpl; [discriminate |].
  destruct (Ascii.eqb c sep); [discriminate |].
  destruct (split sep rest); discriminate.
Qed.

(** Joining the segments with the separator gives the string back. *)
Lemma concat_split (s : string) :
  String.concat (String sep EmptyString) (split sep s) = s.
Proof.
  induction s as [| c rest IH]; simpl; [reflexivity |].
  pose proof (split_not_nil rest) as Hne.
  destruct (Ascii.eqb c sep) eqn:E.
  - apply Ascii.eqb_eq in E. subst c.
    destruct (split sep rest) as [| seg segs]; [congruence |].
    simpl in *. now rewrite IH.
  - destruct (split sep rest) as [| seg segs]; [congruence |].
    destruct segs as [| seg' segs']; simpl in *; now rewrite <- IH.
Qed.

(** No segment holds a separator. *)
Lemma split_without_sep (s seg : string) :
  In seg (split sep s) -> ~ In sep (list_ascii_of_string seg).
Proof.
  revert seg. induction s as [| c rest IH]; simpl; intros seg Hin.
  - destruct Hin as [<- | []]. simpl. tauto.
  - destruct (Ascii.eqb c sep) eqn:E.
    + destruct Hin as [<- | Hin]; [simpl; tauto | now apply IH].
    + destruct (split sep rest) as [| seg0 segs].
      * destruct Hin as [<- | []]. simpl.
        intros [-> | []]. now rewrite Ascii.eqb_refl in E.
      * destruct Hin as [<- | Hin].
        -- simpl. intros [-> | Hin'].
           ++ now rewrite Ascii.eqb_refl in E.
           ++ exact (IH seg0 (or_introl eq_refl) Hin').
        -- apply IH. now right.
Qed.

(** There is one segment more than there are separators. *)
Lemma length_split (s : string) :
  length (split sep s)
  = S (length (filter (Ascii.eqb sep) (list_ascii_of_string s))).
Proof.
  induction s as [| c rest IH]; simpl; [reflexivity |].
  rewrite (Ascii.eqb_sym sep c).
  destruct (Ascii.eqb c sep); simpl.
  - now rewrite IH.
  - destruct (split sep rest); simpl in *; [discriminate | exact IH].
Qed.

End Split.

(** Every segment is non-empty exactly when the path is tidy, and the
    segments after the first are when the path, read from a position that
    follows a segment character, is. *)
Lemma tidy_from_segments (path : string) :
  forallb nonempty (segments path) = tidy_from true path /\
  forallb nonempty (tl (segments path)) = tidy_from false path.
Proof.
  unfold segments.
  induction path as [| c rest [IH1 IH2]]; simpl; [split; reflexivity |].
  destruct (Ascii.eqb c space); simpl.
  - split; [reflexivity | exact IH1].
  - pose proof (split_not_nil space rest) as Hne.
    destruct (split space rest) as [| seg segs]; [congruence |].
    simpl in *. split; exact IH2.
Qed.

Lemma slice_last_last {A : Type} (xs : list A) (d : A) :
  xs <> [] -> slice_last xs = [last xs d].
Proof.
  intros Hne. unfold slice_last.
  destruct (exists_last Hne) as (init & x & ->).
  rewrite rev_app_distr, last_last. reflexivity.
Qed.

(** The name [config.show] looks up is the last segment of the path. *)
Lemma terminal_last_segment (path : string) :
  match slice_last (segments path) with
  | t :: _ => t
  | [] => "undefined"
  end = last_segment path.
Proof.
  unfold last_segment, segments.
  now rewrite (slice_last_last _ EmptyString (split_not_nil space path)).
Qed.

(** C7.  Splitting a path is a function of the path alone and cuts it at
    every single space and nowhere else: [system host-name] gives the
    segments [system] and [host-name], [date] gives the one segment
    [date]; in general there is one segment more than the path has spaces,
    no segment holds a space, and the segments joined by single spaces are
    the path again.  Every facade operation that takes a path sends the
    segments of its argument as the [path] of its descriptor. *)
Theorem path_splitting :
  segments "system host-name" = ["system"; "host-name"] /\
  segments "date" = ["date"] /\
  (forall path,
      String.concat " " (segments path) = path /\
      length (segments path) = S (count_spaces path) /\
      (forall seg, In seg (segments path) -> spaceless seg)) /\
  (forall this net path value,
      snd (run (VyosConfig.set this path value) net)
      = [wire this "configure" (Descriptor.set (segments path) value)]) /\
  (forall this net path,
      snd (run (VyosConfig.delete this path) net)
      = [wire this "configure" (Descriptor.delete (segments path))]) /\
  (forall this net path,
      snd (run (VyosConfig.show this path) net)
      = [wire this "retrieve" (Descriptor.showConfig (segments path))]) /\
  (forall this net path value,
      snd (run (VyosConfig.comment this path value) net)
      = [wire this "configure" (Descriptor.comment (segments path) value)]) /\
  (forall this net path,
      snd (run (VyosOps.show this path) net)
      = [wire this "show" (Descriptor.show (segments path))]) /\
  (forall this net path,
      snd (run (VyosOps.generate this path) net)
      = [wire this "generate" (Descriptor.generate (segments path))]).
Proof.
  split; [reflexivity |]. split; [reflexivity |]. split.
  - intros path. split; [| split].
    + exact (concat_split space path).
    + exact (length_split space path).
    + intros seg. exact (split_without_sep space path seg).
  - repeat split; intros.
    + exact (issues_run _ _ _ (set_issues _ _ _)).
    + exact (issues_run _ _ _ (delete_issues _ _)).
    + exact (issues_run _ _ _ (config_show_issues _ _)).
    + exact (issues_run _ _ _ (comment_issues _ _ _)).
    + exact (issues_run _ _ _ (ops_show_issues _ _)).
    + exact (issues_run _ _ _ (generate_issues _ _)).
Qed.

(** C8, as the code has it.  The facades accept every string as a path
    and check nothing; the segments they send are never none and never
    hold a space, and they are all non-empty exactly when the path is
    tidy: not empty, with no space at its start, at its end or right after
    another space. *)
Theorem segments_nonempty_iff_tidy (path : string) :
  segments path <> [] /\
  (forall seg, In seg (segments path) -> spaceless seg) /\
  (Forall (fun seg => seg <> EmptyString) (segments path)
   <-> tidy path = true).
Proof.
  split; [apply split_not_nil |]. split.
  - intros seg. exact (split_without_sep space path seg).
  - unfold tidy. rewrite <- (proj1 (tidy_from_segments path)).
    rewrite forallb_forall, Forall_forall.
    split; intros H seg Hin; specialize (H seg Hin);
      destruct seg; simpl in *; congruence.
Qed.

(** With two spaces in a row, [config.set] sends an empty segment. *)
Lemma double_space_sends_empty_segment :
  snd (run (VyosConfig.set Fixture.my_vyos "system  host-name" "my-vyos")
           (Fixture.answering 200 Fixture.host_name_answer))
  = [wire Fixture.my_vyos "configure"
       (Descriptor.set ["system"; EmptyString; "host-name"] "my-vyos")] /\
  ~ Forall (fun seg => seg <> EmptyString) (segments "system  host-name").
Proof.
  split; [reflexivity |].
  intros H. rewrite Forall_forall in H.
  apply (H EmptyString); [simpl; tauto | reflexivity].
Qed.

(* ------------------------------------------------------------------ *)
(** *** The facades: what they resolve with *)

Section FacadeResults.

Variables (this : Vyos) (net : Remote).
Variables (st : Z) (b : json) (r : Response).
Hypothesis Hst : validateStatus st = true.
Hypothesis Hb : as_Response b = Some r.
Hypothesis Hs : success r = true.

#[local] Arguments in_operator : simpl never.
#[local] Arguments index : simpl never.

Ltac succeed H :=
  unfold run, bind;
  rewrite (request_succeeding_envelope _ _ _ _ _ _ _ _ H Hst Hb Hs);
  reflexivity.

Lemma set_resolves (path value : string) :
  net (wire this "configure" (Descriptor.set (segments path) value))
  = Answered st b ->
  fst (run (VyosConfig.set this path value) net) = Resolved (Json b).
Proof. intros H. unfold VyosConfig.set. succeed H. Qed.

Lemma delete_resolves (path : string) :
  net (wire this "configure" (Descriptor.delete (segments path)))
  = Answered st b ->
  fst (run (VyosConfig.delete this path) net) = Resolved Undefined.
Proof. intros H. unfold VyosConfig.delete. succeed H. Qed.

Lemma comment_resolves (path value : string) :
  net (wire this "configure" (Descriptor.comment (segments path) value))
  = Answered st b ->
  fst (run (VyosConfig.comment this path value) net) = Resolved Undefined.
Proof. intros H. unfold VyosConfig.comment. succeed H. Qed.

Lemma save_resolves (file : option string) :
  net (wire this "config-file"
         (Descriptor.save
            (match file with Some f => f | None => "/config/config.boot" end)))
  = Answered st b ->
  fst (run (VyosConfig.save this file) net) = Resolved Undefined.
Proof. intros H. unfold VyosConfig.save. succeed H. Qed.

Lemma load_resolves (file : option string) :
  net (wire this "config-file"
         (Descriptor.load
            (match file with Some f => f | None => "/config/config.boot" end)))
  = Answered st b ->
  fst (run (VyosConfig.load this file) net) = Resolved Undefined.
Proof. intros H. unfold VyosConfig.load. succeed H. Qed.

Lemma add_resolves (url : string) :
  net (wire this "image" (Descriptor.add url)) = Answered st b ->
  fst (run (VyosImages.add this url) net) = Resolved Undefined.
Proof. intros H. unfold VyosImages.add. succeed H. Qed.

Lemma remove_resolves (name : string) :
  net (wire this "image" (Descriptor.remove name)) = Answered st b ->
  fst (run (VyosImages.remove this name) net) = Resolved Undefined.
Proof. intros H. unfold VyosImages.remove. succeed H. Qed.

Lemma generate_resolves (path : string) :
  net (wire this "generate" (Descriptor.generate (segments path)))
  = Answered st b ->
  fst (run (VyosOps.generate this path) net) = Resolved (Json b).
Proof. intros H. unfold VyosOps.generate. succeed H. Qed.

Lemma ops_show_resolves (path : string) :
  net (wire this "show" (Descriptor.show (segments path))) = Answered st b ->
  fst (run (VyosOps.show this path) net) = Resolved (Json (data r)).
Proof.
  intros H. unfold VyosOps.show, run, bind.
  rewrite (request_succeeding_envelope _ _ _ _ _ _ _ _ H Hst Hb Hs).
  destruct (as_Response_fields _ _ Hb) as (fs & -> & _ & Hd & _).
  simpl. rewrite Hd. reflexivity.
Qed.

(** [config.show] on a succeeding envelope: the [in] test on the data
    decides. *)
Lemma config_show_settles (path : string) :
  net (wire this "retrieve" (Descriptor.showConfig (segments path)))
  = Answered st b ->
  fst (run (VyosConfig.show this path) net)
  = match in_operator (last_segment path) (Json (data r)) with
    | inl e => Rejected (ThrownTypeError e)
    | inr true => Resolved (index (Json (data r)) (last_segment path))
    | inr false => Resolved (Json (data r))
    end.
Proof.
  intros H. unfold VyosConfig.show, run, bind.
  rewrite terminal_last_segment.
  rewrite (request_succeeding_envelope _ _ _ _ _ _ _ _ H Hst Hb Hs).
  destruct (as_Response_fields _ _ Hb) as (fs & -> & _ & Hd & _).
  simpl. rewrite Hd. unfold bind. simpl.
  destruct (in_operator (last_segment path) (Json (data r))) as [e | [|]];
    reflexivity.
Qed.

(** The same, for data that is a mapping: an own key, no property at
    all, or a member inherited from [Object.prototype]. *)
Lemma config_show_on_mapping (path : string) (fields : list (string * json)) :
  net (wire this "retrieve" (Descriptor.showConfig (segments path)))
  = Answered st b ->
  data r = JObj fields ->
  fst (run (VyosConfig.show this path) net)
  = match own (last_segment path) fields with
    | Some v => Resolved (Json v)
    | None =>
        if mem (last_segment path) Object_prototype
        then Resolved (Inherited (last_segment path))
        else Resolved (Json (JObj fields))
    end.
Proof.
  intros H Hd. rewrite (config_show_settles _ H), Hd.
  unfold in_operator, index.
  destruct (own (last_segment path) fields) as [v |]; [reflexivity |].
  destruct (mem (last_segment path) Object_prototype); reflexivity.
Qed.

End FacadeResults.

(* ------------------------------------------------------------------ *)
(** *** Unwrapping in [config.show] *)

(** On a succeeding retrieval whose data is a mapping, [config.show]
    returns the value under the last segment of the path when the mapping
    has that key, and the whole mapping when it has not and the segment is
    not the name of a member of [Object.prototype] either; when it is such
    a name, the inherited member comes back instead of the mapping. *)
Theorem config_show_unwraps
    (this : Vyos) (net : Remote) (path : string) (st : Z) (b : json)
    (r : Response) (fields : list (string * json)) :
  net (wire this "retrieve" (Descriptor.showConfig (segments path)))
  = Answered st b ->
  validateStatus st = true ->
  as_Response b = Some r ->
  success r = true ->
  data r = JObj fields ->
  (forall v, own (last_segment path) fields = Some v ->
             fst (run (VyosConfig.show this path) net) = Resolved (Json v)) /\
  (own (last_segment path) fields = None ->
   mem (last_segment path) Object_prototype = false ->
   fst (run (VyosConfig.show this path) net) = Resolved (Json (JObj fields))) /\
  (own (last_segment path) fields = None ->
   mem (last_segment path) Object_prototype = true ->
   fst (run (VyosConfig.show this path) net)
   = Resolved (Inherited (last_segment path))).
Proof.
  intros H Hst Hb Hs Hd.
  rewrite (config_show_on_mapping _ _ _ _ _ Hst Hb Hs _ _ H Hd).
  repeat split.
  - intros v Hv. now rewrite Hv.
  - intros Hn Hm. now rewrite Hn, Hm.
  - intros Hn Hm. now rewrite Hn, Hm.
Qed.

(** Data [{ 'host-name': 'my-vyos' }], path [system host-name]. *)
Lemma config_show_host_name :
  fst (run (VyosConfig.show Fixture.my_vyos "system host-name")
           (Fixture.answering 200 Fixture.system_answer))
  = Resolved (Json (JStr "my-vyos")).
Proof.
  apply (proj1 (config_show_unwraps
                  Fixture.my_vyos (Fixture.answering 200 Fixture.system_answer)
                  "system host-name" 200 Fixture.system_answer
                  {| success := true;
                     data := JObj [ ("host-name", JStr "my-vyos") ];
                     error := None |}
                  [ ("host-name", JStr "my-vyos") ]
                  eq_refl eq_refl eq_refl eq_refl eq_refl)).
  reflexivity.
Defined.

(** Data [{ a: 1, b: 2 }], path [system]. *)
Lemma config_show_system_keeps_mapping :
  fst (run (VyosConfig.show Fixture.my_vyos "system")
           (Fixture.answering 200 Fixture.a_b_answer))
  = Resolved (Json (JObj [ ("a", JNum 1); ("b", JNum 2) ])).
Proof. reflexivity. Qed.

(** C3, at a last segment that names a member of [Object.prototype].
    Data [{ a: 1, b: 2 }] has no key [constructor]; with the path
    [system constructor], [config.show] does not return the mapping: the
    test [terminal in data] sees the inherited member, and that member is
    what comes back. *)
Theorem config_show_inherited_member :
  as_Response Fixture.a_b_answer
  = Some {| success := true;
            data := JObj [ ("a", JNum 1); ("b", JNum 2) ];
            error := None |} /\
  last_segment "system constructor" = "constructor" /\
  own "constructor" [ ("a", JNum 1); ("b", JNum 2) ] = None /\
  run (VyosConfig.show Fixture.my_vyos "system constructor")
      (Fixture.answering 200 Fixture.a_b_answer)
  = (Resolved (Inherited "constructor"),
     [wire Fixture.my_vyos "retrieve"
        (Descriptor.showConfig ["system"; "constructor"])]) /\
  fst (run (VyosConfig.show Fixture.my_vyos "system constructor")
           (Fixture.answering 200 Fixture.a_b_answer))
  <> Resolved (Json (JObj [ ("a", JNum 1); ("b", JNum 2) ])).
Proof. repeat split; try reflexivity. discriminate. Qed.

(** C10.  [config.show] applies [in] to the data of the envelope as it
    is.  On a succeeding retrieval whose data is not an object -- [null],
    a boolean, a number or a string -- it does not resolve with the data:
    it fails with the [TypeError] of [in], after its one request.  When
    the data is an object or an array it resolves. *)
Theorem config_show_needs_object_data
    (this : Vyos) (net : Remote) (path : string) (st : Z) (b : json)
    (r : Response) :
  net (wire this "retrieve" (Descriptor.showConfig (segments path)))
  = Answered st b ->
  validateStatus st = true ->
  as_Response b = Some r ->
  success r = true ->
  (is_object (data r) = false ->
   run (VyosConfig.show this path) net
   = (Rejected (ThrownTypeError (InOperatorOnNonObject (last_segment path))),
      [wire this "retrieve" (Descriptor.showConfig (segments path))])) /\
  (is_object (data r) = true ->
   exists v, fst (run (VyosConfig.show this path) net) = Resolved v).
Proof.
  intros H Hst Hb Hs.
  pose proof (config_show_settles _ _ _ _ _ Hst Hb Hs _ H) as Hfst.
  pose proof (issues_run _ _ net (config_show_issues this path)) as Hsnd.
  split; intros Hobj.
  - rewrite (surjective_pairing (run (VyosConfig.show this path) net)).
    rewrite Hfst, Hsnd.
    destruct (data r); try discriminate; reflexivity.
  - rewrite Hfst.
    destruct (data r); try discriminate; unfold in_operator;
      match goal with
      | |- context [match ?x with Some _ => true | None => _ end] =>
          destruct x
      end;
      try (match goal with
           | |- context [if ?c then _ else _] => destruct c
           end);
      eexists; reflexivity.
Qed.

Lemma config_show_null_data_is_type_error :
  run (VyosConfig.show Fixture.my_vyos "system host-name")
      (Fixture.answering 200 Fixture.done_answer)
  = (Rejected (ThrownTypeError (InOperatorOnNonObject "host-name")),
     [wire Fixture.my_vyos "retrieve"
        (Descriptor.showConfig ["system"; "host-name"])]).
Proof.
  exact (proj1 (config_show_needs_object_data
                  Fixture.my_vyos (Fixture.answering 200 Fixture.done_answer)
                  "system host-name" 200 Fixture.done_answer
                  {| success := true; data := JNull; error := None |}
                  eq_refl eq_refl eq_refl eq_refl)
               eq_refl).
Defined.

(* ------------------------------------------------------------------ *)
(** *** What the operations resolve with *)

(** C6, as the code has it.  On a succeeding envelope that arrives on a
    2xx status: [ops.show] resolves with the data of the envelope;
    [config.show] resolves, when the data is a mapping, with the member of
    the data under the last segment of the path if the mapping has that
    key, and with the data itself if that segment is neither a key of the
    mapping nor a name inherited from [Object.prototype]; when the data is
    no object at all ([null], a boolean, a number, a string) [config.show]
    does not resolve but fails with the [TypeError] of [in]; [config.set]
    and [ops.generate] resolve with the whole envelope; [config.delete],
    [config.comment], [config.save], [config.load], [images.add] and
    [images.remove] resolve with no value. *)
Theorem operations_on_success
    (this : Vyos) (st : Z) (b : json) (r : Response) :
  validateStatus st = true ->
  as_Response b = Some r ->
  success r = true ->
  (forall net path,
      net (wire this "show" (Descriptor.show (segments path)))
      = Answered st b ->
      fst (run (VyosOps.show this path) net) = Resolved (Json (data r))) /\
  (forall net path fields,
      net (wire this "retrieve" (Descriptor.showConfig (segments path)))
      = Answered st b ->
      data r = JObj fields ->
      (forall v, own (last_segment path) fields = Some v ->
                 fst (run (VyosConfig.show this path) net)
                 = Resolved (Json v)) /\
      (own (last_segment path) fields = None ->
       mem (last_segment path) Object_prototype = false ->
       fst (run (VyosConfig.show this path) net)
       = Resolved (Json (data r)))) /\
  (forall net path,
      net (wire this "retrieve" (Descriptor.showConfig (segments path)))
      = Answered st b ->
      is_object (data r) = false ->
      fst (run (VyosConfig.show this path) net)
      = Rejected
          (ThrownTypeError (InOperatorOnNonObject (last_segment path)))) /\
  (forall net path value,
      net (wire this "configure" (Descriptor.set (segments path) value))
      = Answered st b ->
      fst (run (VyosConfig.set this path value) net) = Resolved (Json b)) /\
  (forall net path,
      net (wire this "generate" (Descriptor.generate (segments path)))
      = Answered st b ->
      fst (run (VyosOps.generate this path) net) = Resolved (Json b)) /\
  (forall net path,
      net (wire this "configure" (Descriptor.delete (segments path)))
      = Answered st b ->
      fst (run (VyosConfig.delete this path) net) = Resolved Undefined) /\
  (forall net path value,
      net (wire this "configure" (Descriptor.comment (segments path) value))
      = Answered st b ->
      fst (run (VyosConfig.comment this path value) net)
      = Resolved Undefined) /\
  (forall net file,
      net (wire this "config-file"
             (Descriptor.save
                (match file with
                 | Some f => f
                 | None => "/config/config.boot"
                 end)))
      = Answered st b ->
      fst (run (VyosConfig.save this file) net) = Resolved Undefined) /\
  (forall net file,
      net (wire this "config-file"
             (Descriptor.load
                (match file with
                 | Some f => f
                 | None => "/config/config.boot"
                 end)))
      = Answered st b ->
      fst (run (VyosConfig.load this file) net) = Resolved Undefined) /\
  (forall net url,
      net (wire this "image" (Descriptor.add url)) = Answered st b ->
      fst (run (VyosImages.add this url) net) = Resolved Undefined) /\
  (forall net name,
      net (wire this "image" (Descriptor.remove name)) = Answered st b ->
      fst (run (VyosImages.remove this name) net) = Resolved Undefined).
Proof.
  intros Hst Hb Hs.
  split; [intros; eapply ops_show_resolves; eauto |].
  split.
  { intros net path fields H Hd.
    rewrite (config_show_on_mapping _ _ _ _ _ Hst Hb Hs _ _ H Hd), Hd.
    split.
    - intros v Hv. now rewrite Hv.
    - intros Hn Hm. now rewrite Hn, Hm. }
  split.
  { intros net path H Hobj.
    rewrite (config_show_settles _ _ _ _ _ Hst Hb Hs _ H).
    destruct (data r); try discriminate; reflexivity. }
  split; [intros; eapply set_resolves; eauto |].
  split; [intros; eapply generate_resolves; eauto |].
  split; [intros; eapply delete_resolves; eauto |].
  split; [intros; eapply comment_resolves; eauto |].
  split; [intros; eapply save_resolves; eauto |].
  split; [intros; eapply load_resolves; eauto |].
  split; [intros; eapply add_resolves; eauto |].
  intros; eapply remove_resolves; eauto.
Qed.

Lemma operations_on_success_date :
  fst (run (VyosOps.show Fixture.my_vyos "date")
           (Fixture.answering 200 Fixture.host_name_answer))
  = Resolved (Json (JStr "my-vyos")) /\
  fst (run (VyosConfig.show Fixture.my_vyos "system host-name")
           (Fixture.answering 200 Fixture.host_name_answer))
  = Rejected (ThrownTypeError (InOperatorOnNonObject "host-name")) /\
  fst (run (VyosOps.generate Fixture.my_vyos "wireguard default-keypair")
           (Fixture.answering 200 Fixture.host_name_answer))
  = Resolved (Json Fixture.host_name_answer) /\
  fst (run (VyosImages.remove Fixture.my_vyos "1.4-rolling-202101301326")
           (Fixture.answering 200 Fixture.host_name_answer))
  = Resolved Undefined.
Proof.
  destruct (operations_on_success
              Fixture.my_vyos 200 Fixture.host_name_answer
              {| success := true; data := JStr "my-vyos"; error := None |}
              eq_refl eq_refl eq_refl)
    as (Hshow & _ & Hscalar & _ & Hgenerate & _ & _ & _ & _ & _ & Hremove).
  split; [| split; [| split]].
  - apply Hshow. reflexivity.
  - apply (Hscalar (Fixture.answering 200 Fixture.host_name_answer)
                   "system host-name"); reflexivity.
  - apply Hgenerate. reflexivity.
  - apply Hremove. reflexivity.
Defined.

(** A mutation answered with [{ success: true, data: null, error: null }]:
    [config.delete] resolves with no value and [config.set] with the whole
    envelope; neither resolves with the data of the answer. *)
Lemma delete_and_set_do_not_resolve_with_data :
  as_Response Fixture.done_answer
  = Some {| success := true; data := JNull; error := None |} /\
  fst (run (VyosConfig.delete Fixture.my_vyos "system host-name")
           (Fixture.answering 200 Fixture.done_answer))
  = Resolved Undefined /\
  fst (run (VyosConfig.set Fixture.my_vyos "system host-name" "my-vyos")
           (Fixture.answering 200 Fixture.done_answer))
  = Resolved (Json Fixture.done_answer) /\
  fst (run (VyosConfig.delete Fixture.my_vyos "system host-name")
           (Fixture.answering 200 Fixture.done_answer))
  <> Resolved (Json JNull) /\
  fst (run (VyosConfig.set Fixture.my_vyos "system host-name" "my-vyos")
           (Fixture.answering 200 Fixture.done_answer))
  <> Resolved (Json JNull).
Proof. repeat split; try reflexivity; discriminate. Qed.

(* ------------------------------------------------------------------ *)
(** *** Further properties of the gateway *)

(** A failing envelope whose error message is missing, [null] or the
    empty string is not taken for a failure of the remote: on a 2xx status
    [request] resolves with the envelope, on any other status it passes on
    the transport's error with the answer attached. *)
Theorem failing_envelope_without_message
    (this : Vyos) (endpoint : string) (payload : json) (net : Remote)
    (st : Z) (b : json) (r : Response) :
  net (wire this endpoint payload) = Answered st b ->
  as_Response b = Some r ->
  success r = false ->
  error r = None \/ error r = Some EmptyString ->
  (validateStatus st = true ->
   run (request this endpoint payload) net
   = (Resolved b, [wire this endpoint payload])) /\
  (validateStatus st = false ->
   run (request this endpoint payload) net
   = (Rejected (TransportError (BadStatus {| status := st; Axios.data := b |})),
      [wire this endpoint payload])).
Proof.
  intros H Hb Hs He.
  destruct (as_Response_fields _ _ Hb) as (fs & -> & Hsucc & _ & Herr).
  rewrite Hs in Hsucc.
  assert (Herr' : own "error" fs = Some JNull \/ own "error" fs = None \/
                  own "error" fs = Some (JStr EmptyString)).
  { destruct He as [He | He]; rewrite He in Herr; tauto. }
  clear Herr He.
  split; intros Hst.
  - unfold run, request, try_catch, bind, post.
    fold (wire this endpoint payload). rewrite H, Hst. simpl.
    rewrite Hsucc. simpl.
    destruct Herr' as [-> | [-> | ->]]; reflexivity.
  - unfold run.
    rewrite (request_bad_status _ _ _ _ _ _ _ H Hst); [reflexivity |].
    unfold opt_dot. simpl. rewrite Hsucc.
    destruct Herr' as [-> | [-> | ->]]; reflexivity.
Qed.

Lemma failing_envelope_with_empty_message :
  run (request Fixture.my_vyos "retrieve" Fixture.show_host_name)
      (Fixture.answering 200
         (Fixture.envelope false JNull (JStr EmptyString)))
  = (Resolved (Fixture.envelope false JNull (JStr EmptyString)),
     [wire Fixture.my_vyos "retrieve" Fixture.show_host_name]).
Proof.
  exact (proj1 (failing_envelope_without_message
                  Fixture.my_vyos "retrieve" Fixture.show_host_name
                  (Fixture.answering 200
                     (Fixture.envelope false JNull (JStr EmptyString)))
                  200 (Fixture.envelope false JNull (JStr EmptyString))
                  {| success := false; data := JNull;
                     error := Some EmptyString |}
                  eq_refl eq_refl eq_refl (or_intror eq_refl))
               eq_refl).
Defined.

(** An answer on a status outside 2xx whose body is not a failure with a
    message -- a page of a proxy, say -- is a failure of the transport:
    [request] passes on the transport's error, with the answer attached. *)
Theorem bad_status_is_transport_error
    (this : Vyos) (endpoint : string) (payload : json) (net : Remote)
    (st : Z) (b : json) :
  net (wire this endpoint payload) = Answered st b ->
  validateStatus st = false ->
  is_false (opt_dot (Json b) "success") && truthy (opt_dot (Json b) "error")
  = false ->
  run (request this endpoint payload) net
  = (Rejected (TransportError (BadStatus {| status := st; Axios.data := b |})),
     [wire this endpoint payload]).
Proof.
  intros H Hst Hb. unfold run.
  now rewrite (request_bad_status _ _ _ _ _ _ _ H Hst Hb).
Qed.

Lemma bad_gateway_is_transport_error :
  run (request Fixture.my_vyos "retrieve" Fixture.show_host_name)
      (Fixture.answering 502 Fixture.bad_gateway_page)
  = (Rejected (TransportError
                 (BadStatus {| status := 502;
                               Axios.data := Fixture.bad_gateway_page |})),
     [wire Fixture.my_vyos "retrieve" Fixture.show_host_name]).
Proof.
  exact (bad_status_is_transport_error
           Fixture.my_vyos "retrieve" Fixture.show_host_name
           (Fixture.answering 502 Fixture.bad_gateway_page) 502
           Fixture.bad_gateway_page eq_refl eq_refl eq_refl).
Defined.

(** *** Failures pass through the facades *)

Lemma bind_rejected {A B : Type} (m : Async A) (k : A -> Async B)
    (net : Remote) (e : Thrown) :
  fst (run m net) = Rejected e -> fst (run (bind m k) net) = Rejected e.
Proof.
  unfold run, bind. destruct (m net []) as [[a | e'] log]; simpl.
  - discriminate.
  - intros [= ->]. reflexivity.
Qed.

Lemma facade_rejected {A B : Type} (m : Async A) (k : A -> Async B)
    (net : Remote) (e : Thrown) (reqs : list Request) :
  issues (bind m k) reqs ->
  fst (run m net) = Rejected e ->
  run (bind m k) net = (Rejected e, reqs).
Proof.
  intros Hlog Hfst.
  rewrite (surjective_pairing (run (bind m k) net)).
  now rewrite (bind_rejected _ _ _ _ Hfst), (issues_run _ _ _ Hlog).
Qed.

(** Whatever [request] fails with, the operation that called it fails
    with, and the one request of that call is all that has gone out: no
    facade catches the failure, replaces it, or tries again. *)
Theorem operations_pass_failures_on (this : Vyos) (net : Remote) (e : Thrown) :
  (forall path value,
      fst (run (request this "configure"
                  (Descriptor.set (segments path) value)) net)
      = Rejected e ->
      run (VyosConfig.set this path value) net
      = (Rejected e,
         [wire this "configure"
            (Descriptor.set (segments path) value)])) /\
  (forall path,
      fst (run (request this "configure"
                  (Descriptor.delete (segments path))) net)
      = Rejected e ->
      run (VyosConfig.delete this path) net
      = (Rejected e,
         [wire this "configure"
            (Descriptor.delete (segments path))])) /\
  (forall path,
      fst (run (request this "retrieve"
                  (Descriptor.showConfig (segments path))) net)
      = Rejected e ->
      run (VyosConfig.show this path) net
      = (Rejected e,
         [wire this "retrieve"
            (Descriptor.showConfig (segments path))])) /\
  (forall path value,
      fst (run (request this "configure"
                  (Descriptor.comment (segments path) value)) net)
      = Rejected e ->
      run (VyosConfig.comment this path value) net
      = (Rejected e,
         [wire this "configure"
            (Descriptor.comment (segments path) value)])) /\
  (forall file,
      fst (run (request this "config-file"
                  (Descriptor.save
                     (match file with
                      | Some f => f
                      | None => "/config/config.boot"
                      end))) net)
      = Rejected e ->
      run (VyosConfig.save this file) net
      = (Rejected e,
         [wire this "config-file"
            (Descriptor.save
               (match file with
                | Some f => f
                | None => "/config/config.boot"
                end))])) /\
  (forall file,
      fst (run (request this "config-file"
                  (Descriptor.load
                     (match file with
                      | Some f => f
                      | None => "/config/config.boot"
                      end))) net)
      = Rejected e ->
      run (VyosConfig.load this file) net
      = (Rejected e,
         [wire this "config-file"
            (Descriptor.load
               (match file with
                | Some f => f
                | None => "/config/config.boot"
                end))])) /\
  (forall url,
      fst (run (request this "image"
                  (Descriptor.add url)) net)
      = Rejected e ->
      run (VyosImages.add this url) net
      = (Rejected e,
         [wire this "image"
            (Descriptor.add url)])) /\
  (forall name,
      fst (run (request this "image"
                  (Descriptor.remove name)) net)
      = Rejected e ->
      run (VyosImages.remove this name) net
      = (Rejected e,
         [wire this "image"
            (Descriptor.remove name)])) /\
  (forall path,
      fst (run (request this "show"
                  (Descriptor.show (segments path))) net)
      = Rejected e ->
      run (VyosOps.show this path) net
      = (Rejected e,
         [wire this "show"
            (Descriptor.show (segments path))])) /\
  (forall path,
      fst (run (request this "generate"
                  (Descriptor.generate (segments path))) net)
      = Rejected e ->
      run (VyosOps.generate this path) net
      = (Rejected e,
         [wire this "generate"
            (Descriptor.generate (segments path))])).
Proof.
  repeat split; intros.
  - exact (facade_rejected _ _ _ _ _ (set_issues this _ _) H).
  - exact (facade_rejected _ _ _ _ _ (delete_issues this _) H).
  - unfold VyosConfig.show.
    exact (facade_rejected _ _ _ _ _ (config_show_issues this _) H).
  - exact (facade_rejected _ _ _ _ _ (comment_issues this _ _) H).
  - exact (facade_rejected _ _ _ _ _ (save_issues this _) H).
  - exact (facade_rejected _ _ _ _ _ (load_issues this _) H).
  - exact (facade_rejected _ _ _ _ _ (add_issues this _) H).
  - exact (facade_rejected _ _ _ _ _ (remove_issues this _) H).
  - exact (facade_rejected _ _ _ _ _ (ops_show_issues this _) H).
  - exact (facade_rejected _ _ _ _ _ (generate_issues this _) H).
Qed.

(* ------------------------------------------------------------------ *)
(** *** When the gateway resolves, and what it throws *)

Section Settling.

Variables (this : Vyos) (endpoint : string) (payload : json) (net : Remote).

#[local] Arguments truthy : simpl never.

(** On a 2xx status, a body other than [null] that does not report a
    failure is returned as it is, whatever it is. *)
Lemma request_2xx_passes_body (log : list Request) (st : Z) (b : json) :
  net (wire this endpoint payload) = Answered st b ->
  validateStatus st = true ->
  b <> JNull ->
  reports_failure b = false ->
  request this endpoint payload net log
  = (Resolved b, (log ++ [wire this endpoint payload])%list).
Proof.
  intros H Hst Hnull Hrep.
  unfold request, try_catch, bind, post.
  fold (wire this endpoint payload). rewrite H, Hst. simpl.
  destruct b as [| x | n | s | items | fs]; try reflexivity; [congruence |].
  unfold reports_failure, opt_dot in Hrep. simpl in *.
  destruct (own "success" fs) as [[| [|] | | | |] |]; simpl in *;
    try reflexivity.
  destruct (own "error" fs) as [e |]; simpl in *.
  - rewrite Hrep. reflexivity.
  - reflexivity.
Qed.

(** On a 2xx status, the body [null] makes the read of [success] throw. *)
Lemma request_2xx_null_body (log : list Request) (st : Z) :
  net (wire this endpoint payload) = Answered st JNull ->
  validateStatus st = true ->
  request this endpoint payload net log
  = (Rejected (ThrownTypeError (CannotReadProperty "success")),
     (log ++ [wire this endpoint payload])%list).
Proof.
  intros H Hst. unfold request, try_catch, bind, post.
  fold (wire this endpoint payload). rewrite H, Hst. reflexivity.
Qed.

(** A body that reports a failure never lets [request] resolve, and what
    is thrown is a value, not an error of the runtime or the transport. *)
Lemma request_reported_failure (log : list Request) (st : Z) (b : json) :
  net (wire this endpoint payload) = Answered st b ->
  reports_failure b = true ->
  exists v, fst (request this endpoint payload net log)
            = Rejected (ThrownValue v).
Proof.
  intros H Hrep.
  unfold request, try_catch, bind, post.
  fold (wire this endpoint payload). rewrite H.
  destruct (validateStatus st); simpl.
  - destruct b as [| x | n | s | items | fs]; try discriminate.
    unfold reports_failure, opt_dot in Hrep. simpl in *.
    destruct (own "success" fs) as [[| [|] | | | |] |]; simpl in *;
      try discriminate.
    destruct (own "error" fs) as [e |]; simpl in *; [| discriminate].
    rewrite Hrep. unfold throw at 1. cbv beta iota.
    destruct (is_false _ && truthy _); simpl; eexists; reflexivity.
  - unfold reports_failure in Hrep. rewrite Hrep. simpl.
    eexists; reflexivity.
Qed.

(** Whatever makes [request] resolve is a 2xx answer, and [request]
    resolves with the body of that answer, which is not [null] and does
    not report a failure. *)
Lemma request_resolved_inv (log : list Request) (b : json) :
  fst (request this endpoint payload net log) = Resolved b ->
  exists st,
    net (wire this endpoint payload) = Answered st b /\
    validateStatus st = true /\
    b <> JNull /\
    reports_failure b = false.
Proof.
  intros Hres.
  destruct (net (wire this endpoint payload)) as [st d | cause] eqn:H.
  - destruct (validateStatus st) eqn:Hst.
    + destruct (reports_failure d) eqn:Hrep.
      * destruct (request_reported_failure log _ _ H Hrep) as (v & Hv).
        congruence.
      * destruct d as [| x | n | s | items | fs];
          try (rewrite (request_2xx_passes_body log _ _ H Hst) in Hres;
               [ injection Hres as <-; exists st;
                 repeat split; try assumption; discriminate
               | discriminate | assumption ]).
        rewrite (request_2xx_null_body log _ H Hst) in Hres. discriminate.
    + destruct (reports_failure d) eqn:Hrep.
      * destruct (request_reported_failure log _ _ H Hrep) as (v & Hv).
        congruence.
      * rewrite (request_bad_status _ _ _ _ log _ _ H Hst Hrep) in Hres.
        discriminate.
  - rewrite (request_no_response _ _ _ _ log _ H) in Hres. discriminate.
Qed.

End Settling.

#[local] Arguments truthy : simpl never.

(** [request] resolves exactly on a 2xx answer whose body is not [null]
    and does not report a failure, and it resolves with that body as it
    is: an envelope, or anything else the remote sent.  It never resolves
    on another status or without an answer. *)
Theorem request_resolves_iff
    (this : Vyos) (endpoint : string) (payload : json) (net : Remote)
    (b : json) :
  fst (run (request this endpoint payload) net) = Resolved b <->
  exists st,
    net (wire this endpoint payload) = Answered st b /\
    validateStatus st = true /\
    b <> JNull /\
    reports_failure b = false.
Proof.
  split.
  - apply request_resolved_inv.
  - intros (st & H & Hst & Hnull & Hrep). unfold run.
    now rewrite (request_2xx_passes_body _ _ _ _ _ _ _ H Hst Hnull Hrep).
Qed.

(** The only error of the runtime [request] can fail with is the one of
    reading [success] off the body [null] of a 2xx answer. *)
Theorem request_type_error_iff
    (this : Vyos) (endpoint : string) (payload : json) (net : Remote)
    (te : TypeError) :
  fst (run (request this endpoint payload) net) = Rejected (ThrownTypeError te)
  <->
  te = CannotReadProperty "success" /\
  exists st,
    net (wire this endpoint payload) = Answered st JNull /\
    validateStatus st = true.
Proof.
  unfold run. split.
  - intros Hte.
    destruct (net (wire this endpoint payload)) as [st d | cause] eqn:H.
    + destruct (reports_failure d) eqn:Hrep.
      { destruct (request_reported_failure _ _ _ _ [] _ _ H Hrep) as (v & Hv).
        congruence. }
      destruct (validateStatus st) eqn:Hst.
      * destruct d as [| x | n | s | items | fs];
          try (rewrite (request_2xx_passes_body _ _ _ _ [] _ _ H Hst) in Hte;
               [discriminate | discriminate | assumption]).
        rewrite (request_2xx_null_body _ _ _ _ [] _ H Hst) in Hte.
        injection Hte as <-. split; [reflexivity |]. now exists st.
      * rewrite (request_bad_status _ _ _ _ [] _ _ H Hst Hrep) in Hte.
        discriminate.
    + rewrite (request_no_response _ _ _ _ [] _ H) in Hte. discriminate.
  - intros (-> & st & H & Hst).
    now rewrite (request_2xx_null_body _ _ _ _ [] _ H Hst).
Qed.

(** The error of a failing body is thrown as it is, whatever its JSON
    type -- a number, an array, an object -- as long as it is truthy and
    has no [response] of its own; the status of the answer does not
    matter. *)
Theorem remote_error_value_is_thrown
    (this : Vyos) (endpoint : string) (payload : json) (net : Remote)
    (st : Z) (fs : list (string * json)) (e : json) :
  net (wire this endpoint payload) = Answered st (JObj fs) ->
  own "success" fs = Some (JBool false) ->
  own "error" fs = Some e ->
  truthy (Json e) = true ->
  opt_dot (Json e) "response" = Undefined ->
  run (request this endpoint payload) net
  = (Rejected (ThrownValue (Json e)), [wire this endpoint payload]).
Proof.
  intros H Hs He Ht Hr.
  unfold run, request, try_catch, bind, post.
  fold (wire this endpoint payload). rewrite H.
  destruct (validateStatus st); simpl.
  - rewrite Hs. simpl. rewrite He. simpl. rewrite Ht.
    unfold throw at 1. cbv beta iota.
    unfold response_data. rewrite Hr. reflexivity.
  - unfold opt_dot. simpl. rewrite Hs, He. simpl. rewrite Ht. reflexivity.
Qed.

Lemma remote_error_number_is_thrown :
  run (request Fixture.my_vyos "retrieve" Fixture.show_host_name)
      (Fixture.answering 500 (Fixture.envelope false JNull (JNum 42)))
  = (Rejected (ThrownValue (Json (JNum 42))),
     [wire Fixture.my_vyos "retrieve" Fixture.show_host_name]).
Proof.
  exact (remote_error_value_is_thrown
           Fixture.my_vyos "retrieve" Fixture.show_host_name
           (Fixture.answering 500 (Fixture.envelope false JNull (JNum 42)))
           500
           [ ("success", JBool false); ("data", JNull); ("error", JNum 42) ]
           (JNum 42) eq_refl eq_refl eq_refl eq_refl eq_refl).
Defined.

(** The [catch] block also sees what the [try] block throws.  When the
    error of a failing body is itself an object whose [response.data]
    reports a failure, a 2xx answer makes [request] throw the error of
    that inner body, while any other status makes it throw the object. *)
Theorem nested_error_is_unwrapped_on_2xx
    (this : Vyos) (endpoint : string) (payload : json) (net : Remote)
    (st : Z) (fs efs : list (string * json)) (resp inner : json) :
  net (wire this endpoint payload) = Answered st (JObj fs) ->
  own "success" fs = Some (JBool false) ->
  own "error" fs = Some (JObj efs) ->
  own "response" efs = Some resp ->
  opt_dot (Json resp) "data" = Json inner ->
  reports_failure inner = true ->
  (validateStatus st = true ->
   run (request this endpoint payload) net
   = (Rejected (ThrownValue (opt_dot (Json inner) "error")),
      [wire this endpoint payload])) /\
  (validateStatus st = false ->
   run (request this endpoint payload) net
   = (Rejected (ThrownValue (Json (JObj efs))),
      [wire this endpoint payload])).
Proof.
  intros H Hs He Hresp Hdata Hrep.
  unfold reports_failure in Hrep.
  split; intros Hst;
    unfold run, request, try_catch, bind, post;
    fold (wire this endpoint payload); rewrite H, Hst; simpl.
  - rewrite Hs. simpl. rewrite He. simpl.
    unfold throw at 1. cbv beta iota.
    unfold response_data.
    assert (Hr : opt_dot (Json (JObj efs)) "response" = Json resp).
    { unfold opt_dot. simpl. now rewrite Hresp. }
    rewrite Hr, Hdata, Hrep. reflexivity.
  - unfold opt_dot. simpl. rewrite Hs, He. reflexivity.
Qed.

Lemma nested_error_is_unwrapped_on_200 :
  run (request Fixture.my_vyos "retrieve" Fixture.show_host_name)
      (Fixture.answering 200
         (Fixture.envelope false JNull
            (JObj [ ("response",
                     JObj [ ("data",
                             Fixture.envelope false JNull (JStr "inner")) ])
                  ])))
  = (Rejected (ThrownValue (Json (JStr "inner"))),
     [wire Fixture.my_vyos "retrieve" Fixture.show_host_name]).
Proof.
  exact (proj1 (nested_error_is_unwrapped_on_2xx
                  Fixture.my_vyos "retrieve" Fixture.show_host_name
                  (Fixture.answering 200
                     (Fixture.envelope false JNull
                        (JObj [ ("response",
                                 JObj [ ("data",
                                         Fixture.envelope false JNull
                                           (JStr "inner")) ]) ])))
                  200
                  [ ("success", JBool false); ("data", JNull);
                    ("error",
                     JObj [ ("response",
                             JObj [ ("data",
                                     Fixture.envelope false JNull
                                       (JStr "inner")) ]) ]) ]
                  [ ("response",
                     JObj [ ("data",
                             Fixture.envelope false JNull (JStr "inner")) ]) ]
                  (JObj [ ("data",
                           Fixture.envelope false JNull (JStr "inner")) ])
                  (Fixture.envelope false JNull (JStr "inner"))
                  eq_refl eq_refl eq_refl eq_refl eq_refl eq_refl)
               eq_refl).
Defined.

(* ------------------------------------------------------------------ *)
(** *** The facades on whatever the gateway resolves with *)

Lemma bind_resolved {A B : Type} (m : Async A) (k : A -> Async B)
    (net : Remote) (a : A) :
  fst (run m net) = Resolved a ->
  fst (run (bind m k) net) = fst (k a net (snd (run m net))).
Proof.
  unfold run, bind. destruct (m net []) as [[a' | e] log]; simpl.
  - intros [= ->]. reflexivity.
  - discriminate.
Qed.

Lemma run_request_not_null (this : Vyos) (endpoint : string) (payload : json)
    (net : Remote) (b : json) :
  fst (run (request this endpoint payload) net) = Resolved b -> b <> JNull.
Proof.
  intros H. destruct (request_resolved_inv _ _ _ _ _ _ H) as (st & _ & _ & Hn & _).
  exact Hn.
Qed.

Lemma dot_not_null (b : json) (k : string) :
  b <> JNull -> dot (Json b) k = inr (opt_dot (Json b) k).
Proof. intros Hn. unfold opt_dot. destruct b; simpl; congruence. Qed.

(** Whatever body [request] resolves with, an envelope or not:
    [config.set] and [ops.generate] resolve with that body, [ops.show]
    with its [data] field -- [undefined] when it has none -- and the six
    operations that return nothing resolve with no value.  None of the
    nine checks the body. *)
Theorem operations_on_resolved_body (this : Vyos) (net : Remote) (b : json) :
  (forall path value,
      fst (run (request this "configure"
                  (Descriptor.set (segments path) value)) net) = Resolved b ->
      fst (run (VyosConfig.set this path value) net) = Resolved (Json b)) /\
  (forall path,
      fst (run (request this "generate"
                  (Descriptor.generate (segments path))) net) = Resolved b ->
      fst (run (VyosOps.generate this path) net) = Resolved (Json b)) /\
  (forall path,
      fst (run (request this "show" (Descriptor.show (segments path))) net)
      = Resolved b ->
      fst (run (VyosOps.show this path) net)
      = Resolved (opt_dot (Json b) "data")) /\
  (forall path,
      fst (run (request this "configure"
                  (Descriptor.delete (segments path))) net) = Resolved b ->
      fst (run (VyosConfig.delete this path) net) = Resolved Undefined) /\
  (forall path value,
      fst (run (request this "configure"
                  (Descriptor.comment (segments path) value)) net)
      = Resolved b ->
      fst (run (VyosConfig.comment this path value) net)
      = Resolved Undefined) /\
  (forall file,
      fst (run (request this "config-file" (Descriptor.save file)) net)
      = Resolved b ->
      fst (run (VyosConfig.save this (Some file)) net) = Resolved Undefined) /\
  (forall file,
      fst (run (request this "config-file" (Descriptor.load file)) net)
      = Resolved b ->
      fst (run (VyosConfig.load this (Some file)) net) = Resolved Undefined) /\
  (forall url,
      fst (run (request this "image" (Descriptor.add url)) net) = Resolved b ->
      fst (run (VyosImages.add this url) net) = Resolved Undefined) /\
  (forall name,
      fst (run (request this "image" (Descriptor.remove name)) net)
      = Resolved b ->
      fst (run (VyosImages.remove this name) net) = Resolved Undefined).
Proof.
  repeat split; intros;
    match goal with
    | H : fst (run (request _ _ _) _) = Resolved _ |- _ =>
        try (unfold VyosOps.show;
             rewrite (bind_resolved _ _ _ _ H),
                     (dot_not_null _ "data" (run_request_not_null _ _ _ _ _ H));
             reflexivity);
        exact (eq_trans (bind_resolved _ _ _ _ H) eq_refl)
    end.
Qed.

(** [config.show] reads [data] off whatever body [request] resolves with
    and applies [in] to it.  When the body has no [data] field -- a body
    that is a string, an object without the field -- it fails with the
    [TypeError] of [in]. *)
Theorem config_show_without_data
    (this : Vyos) (net : Remote) (path : string) (b : json) :
  fst (run (request this "retrieve"
              (Descriptor.showConfig (segments path))) net) = Resolved b ->
  opt_dot (Json b) "data" = Undefined ->
  fst (run (VyosConfig.show this path) net)
  = Rejected (ThrownTypeError (InOperatorOnNonObject (last_segment path))).
Proof.
  intros H Hd. unfold VyosConfig.show.
  rewrite (bind_resolved _ _ _ _ H).
  rewrite (dot_not_null _ "data" (run_request_not_null _ _ _ _ _ H)), Hd.
  rewrite terminal_last_segment. reflexivity.
Qed.

Lemma config_show_of_a_page_is_type_error :
  fst (run (VyosConfig.show Fixture.my_vyos "system host-name")
           (Fixture.answering 200 Fixture.bad_gateway_page))
  = Rejected (ThrownTypeError (InOperatorOnNonObject "host-name")).
Proof.
  exact (config_show_without_data
           Fixture.my_vyos (Fixture.answering 200 Fixture.bad_gateway_page)
           "system host-name" Fixture.bad_gateway_page eq_refl eq_refl).
Defined.

(* ------------------------------------------------------------------ *)
(** *** Paths that reach a given list of segments *)

Section Join.

Variable sep : ascii.

Lemma split_without_separator (s : string) :
  ~ In sep (list_ascii_of_string s) -> split sep s = [s].
Proof.
  induction s as [| c rest IH]; simpl; [reflexivity |].
  intros Hno. destruct (Ascii.eqb c sep) eqn:E.
  - apply Ascii.eqb_eq in E. tauto.
  - rewrite IH; [reflexivity | tauto].
Qed.

Lemma split_at_separator (s rest : string) :
  ~ In sep (list_ascii_of_string s) ->
  split sep (s ++ String sep rest) = s :: split sep rest.
Proof.
  induction s as [| c s' IH]; simpl.
  - intros _. now rewrite Ascii.eqb_refl.
  - intros Hno. destruct (Ascii.eqb c sep) eqn:E.
    + apply Ascii.eqb_eq in E. tauto.
    + rewrite IH; [reflexivity | tauto].
Qed.

End Join.

(** Splitting undoes joining: every list of segments that is not empty and
    whose segments hold no space (empty segments included) is what the
    facades send for the path made of these segments with single spaces in
    between. *)
Theorem segments_of_joined (segs : list string) :
  segs <> [] ->
  (forall seg, In seg segs -> spaceless seg) ->
  segments (String.concat " " segs) = segs.
Proof.
  unfold segments, spaceless.
  induction segs as [| x rest IH]; [congruence |].
  intros _ Hall. destruct rest as [| y rest'].
  - simpl. apply split_without_separator. apply Hall. now left.
  - change (String.concat " " (x :: y :: rest'))
      with (x ++ String space (String.concat " " (y :: rest'))).
    rewrite split_at_separator by (apply Hall; now left).
    rewrite IH; [reflexivity | discriminate |].
    intros seg Hin. apply Hall. now right.
Qed.

Lemma segments_of_joined_interfaces :
  segments (String.concat " " ["interfaces"; "ethernet"; "eth0"])
  = ["interfaces"; "ethernet"; "eth0"].
Proof.
  apply (segments_of_joined ["interfaces"; "ethernet"; "eth0"]).
  - discriminate.
  - intros seg [<- | [<- | [<- | []]]]; unfold spaceless; simpl;
      intros H; repeat (destruct H as [H | H]; [discriminate H |]);
      exact H.
Defined.

(* ------------------------------------------------------------------ *)
(** *** One operation after another *)

(** [await config.set(path, value); await config.save(file)]: when the
    set fails, the script fails with the same value and the save is never
    sent; when the set resolves, the two requests go out in this order
    and nothing else does. *)
Theorem set_then_save
    (this : Vyos) (net : Remote) (path value : string) (file : option string) :
  (forall e,
      fst (run (VyosConfig.set this path value) net) = Rejected e ->
      run (_ <- VyosConfig.set this path value ;; VyosConfig.save this file)
          net
      = (Rejected e,
         [wire this "configure" (Descriptor.set (segments path) value)])) /\
  (forall v,
      fst (run (VyosConfig.set this path value) net) = Resolved v ->
      snd (run (_ <- VyosConfig.set this path value ;;
                VyosConfig.save this file) net)
      = [ wire this "configure" (Descriptor.set (segments path) value);
          wire this "config-file"
            (Descriptor.save
               (match file with
                | Some f => f
                | None => "/config/config.boot"
                end)) ]).
Proof.
  pose proof (set_issues this path value net []) as Hset.
  unfold run, bind.
  destruct (VyosConfig.set this path value net []) as [[a | e'] log];
    simpl in *; subst log; split.
  - discriminate.
  - intros v _. exact (save_issues this file net _).
  - intros e [= ->]. reflexivity.
  - discriminate.
Qed.

(* ------------------------------------------------------------------ *)
(** *** [config.show] on data that is a list *)

Lemma string_of_nat_parses (n : nat) :
  NilZero.uint_of_string (string_of_nat n) = Some (Nat.to_uint n).
Proof.
  unfold string_of_nat. apply NilZero.usu.
  rewrite <- (DecimalNat.Unsigned.of_to n) at 1.
  rewrite DecimalNat.Unsigned.to_of.
  apply DecimalFacts.unorm_nonnil.
Qed.

Lemma string_of_nat_inj (n m : nat) :
  string_of_nat n = string_of_nat m -> n = m.
Proof.
  intros H. apply DecimalNat.Unsigned.to_uint_inj.
  pose proof (string_of_nat_parses n) as Hn.
  rewrite H, string_of_nat_parses in Hn. congruence.
Qed.

Lemma find_numeral (i start len : nat) :
  start <= i < start + len ->
  find (fun j => String.eqb (string_of_nat i) (string_of_nat j)) (seq start len)
  = Some i.
Proof.
  revert start. induction len as [| len IH]; intros start Hi; [lia |].
  simpl. destruct (String.eqb_spec (string_of_nat i) (string_of_nat start))
    as [E | E].
  - apply string_of_nat_inj in E. now subst.
  - apply IH. assert (i <> start) by congruence. lia.
Qed.

Lemma array_index_numeral (i len : nat) :
  i < len -> array_index (string_of_nat i) len = Some i.
Proof. intros Hi. apply find_numeral. lia. Qed.

Lemma array_index_length (len : nat) : array_index "length" len = None.
Proof.
  unfold array_index.
  destruct (find _ (seq 0 len)) as [i |] eqn:E; [| reflexivity].
  apply find_some in E. destruct E as [_ E].
  apply String.eqb_eq in E.
  pose proof (string_of_nat_parses i) as Hp. rewrite <- E in Hp.
  discriminate Hp.
Qed.

(** On a succeeding retrieval whose data is a list, the unwrapping applies
    to positions: a last segment that is the decimal numeral of a position
    of the list makes [config.show] return the item there, and the last
    segment [length] makes it return the number of items, instead of the
    list. *)
Theorem config_show_on_list
    (this : Vyos) (net : Remote) (path : string) (st : Z) (b : json)
    (r : Response) (items : list json) :
  net (wire this "retrieve" (Descriptor.showConfig (segments path)))
  = Answered st b ->
  validateStatus st = true ->
  as_Response b = Some r ->
  success r = true ->
  data r = JArr items ->
  (forall i x,
      last_segment path = string_of_nat i ->
      nth_error items i = Some x ->
      fst (run (VyosConfig.show this path) net) = Resolved (Json x)) /\
  (last_segment path = "length" ->
   fst (run (VyosConfig.show this path) net)
   = Resolved (Json (JNum (Z.of_nat (length items))))).
Proof.
  intros H Hst Hb Hs Hd.
  rewrite (config_show_settles _ _ _ _ _ Hst Hb Hs _ H), Hd.
  unfold in_operator, index. split.
  - intros i x -> Hx.
    assert (Hi : i < length items).
    { apply nth_error_Some. congruence. }
    rewrite (array_index_numeral _ _ Hi), Hx. reflexivity.
  - intros ->. rewrite array_index_length. reflexivity.
Qed.

Lemma config_show_second_of_a_list :
  fst (run (VyosConfig.show Fixture.my_vyos "system name-server 1")
           (Fixture.answering 200
              (Fixture.envelope true
                 (JArr [JStr "192.0.2.1"; JStr "192.0.2.2"]) JNull)))
  = Resolved (Json (JStr "192.0.2.2")).
Proof.
  exact (proj1 (config_show_on_list
                  Fixture.my_vyos
                  (Fixture.answering 200
                     (Fixture.envelope true
                        (JArr [JStr "192.0.2.1"; JStr "192.0.2.2"]) JNull))
                  "system name-server 1" 200
                  (Fixture.envelope true
                     (JArr [JStr "192.0.2.1"; JStr "192.0.2.2"]) JNull)
                  {| success := true;
                     data := JArr [JStr "192.0.2.1"; JStr "192.0.2.2"];
                     error := None |}
                  [JStr "192.0.2.1"; JStr "192.0.2.2"]
                  eq_refl eq_refl eq_refl eq_refl eq_refl)
               1 (JStr "192.0.2.2") eq_refl eq_refl).
Defined.

(* ------------------------------------------------------------------ *)
(** *** The REPL front-end *)

(** The prompt gets a client only when [URL] and [KEY] are both set and
    not empty, and then the client is the one the constructor builds from
    these two.  The URL is looked at first: when it is missing or empty
    the script exits with code 1 and the diagnostic for the URL alone,
    whatever [KEY] is; when only the key is missing or empty it exits with
    code 1 and the diagnostic for the key.  When both are there and the
    URL does not parse, the prompt has been started by the time the
    constructor throws. *)
Theorem repl_needs_url_and_key
    (URL_href : string -> option string) (env : string -> option string) :
  (forall prompt v,
      Repl.main URL_href env = Repl.Started prompt v <->
      prompt = "v> " /\
      exists url key,
        env "URL" = Some url /\ url <> EmptyString /\
        env "KEY" = Some key /\ key <> EmptyString /\
        new_Vyos URL_href url key = Some v) /\
  (env "URL" = None \/ env "URL" = Some EmptyString ->
   Repl.main URL_href env
   = Repl.Exited 1 ["Missing URL! Please set URL or add it to .env"]) /\
  (forall url,
      env "URL" = Some url -> url <> EmptyString ->
      env "KEY" = None \/ env "KEY" = Some EmptyString ->
      Repl.main URL_href env
      = Repl.Exited 1 ["Missing API Key! Please set KEY or add it to .env"]) /\
  (forall url key,
      env "URL" = Some url -> url <> EmptyString ->
      env "KEY" = Some key -> key <> EmptyString ->
      URL_href url = None ->
      Repl.main URL_href env = Repl.Threw "v> ").
Proof.
  unfold Repl.main. split; [| split; [| split]].
  - intros prompt v. split.
    + destruct (env "URL") as [[| c url] |]; try discriminate.
      destruct (env "KEY") as [[| k key] |]; try discriminate.
      destruct (new_Vyos URL_href (String c url) (String k key)) as [v' |]
        eqn:Hnew; try discriminate.
      intros [= <- <-]. split; [reflexivity |].
      exists (String c url), (String k key).
      repeat split; try reflexivity; try discriminate. exact Hnew.
    + intros (-> & url & key & -> & Hu & -> & Hk & ->).
      destruct url; [congruence |]. destruct key; [congruence |].
      reflexivity.
  - intros [-> | ->]; reflexivity.
  - intros url -> Hu [-> | ->]; destruct url; congruence.
  - intros url key -> Hu -> Hk Hbad. unfold new_Vyos. rewrite Hbad.
    destruct url; [congruence |]. destruct key; [congruence |].
    reflexivity.
Qed.
